(** * SerenService: the x402 paid-query flow (src/services/serenService.ts)

    A shallow embedding of [SerenService.executeQuery] and
    [SerenService.buildPaymentPayload].  The service talks to three
    collaborators whose code lives outside the service file: the wallet
    provider, the gateway client and the EIP-712 helpers.  Every call to
    one of them is an explicit [Call]; a program is a finite tree of such
    calls ([Task]); an environment ([World]) answers them, and [run]
    records the interactions in order.  Theorems quantify over every
    [World], that is over every behaviour of the collaborators.

    Numbers: Unix times, timeouts and counts are integral values far
    inside the range where JavaScript number arithmetic is exact, and
    are modelled as [Z].  Strings are modelled as [string]; the built-in
    [trim] and [toUpperCase] are modelled on ASCII text. *)

From Stdlib Require Import ZArith String Ascii List Bool Lia DecimalString.
From ExtLib Require Import Structures.Monad.
Import ListNotations.
Import MonadNotation.

Local Open Scope string_scope.
Local Open Scope Z_scope.
Local Open Scope monad_scope.

(* ===================================================================== *)
(** ** JavaScript built-ins used by the service *)
(* ===================================================================== *)

(** [!s] for a value of type string: only the empty string is falsy. *)
Definition falsy (s : string) : bool :=
  match s with
  | EmptyString => true
  | String _ _ => false
  end.

Definition truthy (s : string) : bool := negb (falsy s).

(** White space and line terminators removed by [String.prototype.trim]
    (ASCII range): TAB, LF, VT, FF, CR, SPACE. *)
Definition isWhiteSpace (c : ascii) : bool :=
  let n := nat_of_ascii c in
  ((9 <=? n) && (n <=? 13))%nat || (n =? 32)%nat.

Fixpoint trimStart (s : string) : string :=
  match s with
  | EmptyString => EmptyString
  | String c r => if isWhiteSpace c then trimStart r else s
  end.

Fixpoint trimEnd (s : string) : string :=
  match s with
  | EmptyString => EmptyString
  | String c r =>
      match trimEnd r with
      | EmptyString => if isWhiteSpace c then EmptyString else String c EmptyString
      | r' => String c r'
      end
  end.

Definition trim (s : string) : string := trimEnd (trimStart s).

(** [String.prototype.toUpperCase] on ASCII text: a-z become A-Z, every
    other character is kept. *)
Definition upperChar (c : ascii) : ascii :=
  let n := nat_of_ascii c in
  if ((97 <=? n) && (n <=? 122))%nat then ascii_of_nat (n - 32) else c.

Fixpoint toUpperCase (s : string) : string :=
  match s with
  | EmptyString => EmptyString
  | String c r => String (upperChar c) (toUpperCase r)
  end.

(** [s.startsWith(p)]. *)
Definition startsWith (s p : string) : bool := String.prefix p s.

(** [Number.prototype.toString()] on an integral number: an optional
    minus sign followed by the decimal digits. *)
Definition Number_toString (n : Z) : string :=
  NilZero.string_of_int (Z.to_int n).

(** [Math.floor(ms / 1000)]. *)
Definition Math_floor_div (ms d : Z) : Z := ms / d.




(* ===================================================================== *)
(** ** Data model *)
(* ===================================================================== *)

(** Addresses, signatures and nonces are hex strings ([`0x${string}`]). *)
Definition Address := string.
Definition Signature := string.

(** One row of a query result ([unknown] in the source): kept opaque. *)
Definition Row := string.

Module ExecuteQueryParams.
Record t := { sql : string; providerId : string }.
End ExecuteQueryParams.

Module ExecuteQueryResult.
Record t := {
  success : bool;
  rows : option (list Row);
  rowCount : option Z;
  estimatedCost : option string;
  actualCost : option string;
  executionTime : option Z;
  txHash : option string;
  error : option string
}.
End ExecuteQueryResult.

(** [{ success: false, error: msg }]. *)
Definition failure (msg : string) : ExecuteQueryResult.t :=
  {| ExecuteQueryResult.success := false;
     ExecuteQueryResult.rows := None;
     ExecuteQueryResult.rowCount := None;
     ExecuteQueryResult.estimatedCost := None;
     ExecuteQueryResult.actualCost := None;
     ExecuteQueryResult.executionTime := None;
     ExecuteQueryResult.txHash := None;
     ExecuteQueryResult.error := Some msg |}.

(** The optional [extra.eip712] block of a payment requirement, read by
    the service through [?.] and [??]: every level may be missing. *)
Module Eip712Config.
Record t := {
  chainId : option Z;
  verifyingContract : option Address;
  name : option string;
  version : option string
}.
End Eip712Config.

Module Extra.
Record t := { eip712 : option Eip712Config.t }.
End Extra.

(** gateway/types PaymentRequirement, with the fields the tests and the
    service use. *)
Module PaymentRequirement.
Record t := {
  scheme : string;
  network : string;
  maxAmountRequired : string;
  asset : Address;
  payTo : Address;
  resource : string;
  description : string;
  mimeType : string;
  maxTimeoutSeconds : Z;
  extra : option Extra.t
}.
End PaymentRequirement.

Module PaymentRequirementsResponse.
Record t := { x402Version : Z; accepts : list PaymentRequirement.t }.
End PaymentRequirementsResponse.

(** The wire payload built by [buildPaymentPayload]. *)
Module Authorization.
Record t := {
  from : Address;
  to : Address;
  value : string;
  validAfter : string;
  validBefore : string;
  nonce : string
}.
End Authorization.

Module SignedAuthorization.
Record t := { signature : Signature; authorization : Authorization.t }.
End SignedAuthorization.

Module PaymentPayload.
Record t := {
  x402Version : Z;
  scheme : string;
  network : string;
  payload : SignedAuthorization.t
}.
End PaymentPayload.

Module Settlement.
Record t := { payer : Address; transaction : string; network : string }.
End Settlement.

Module QueryResult.
Record t := {
  rows : list Row;
  rowCount : Z;
  estimatedCost : string;
  actualCost : string;
  executionTime : Z;
  settlement : option Settlement.t
}.
End QueryResult.

(** What [gatewayClient.queryDatabase] resolves to: the service reads
    [status], [data], [paymentRequired] and [paymentResponse], the last
    three being optional. *)
Module GatewayResponse.
Record t := {
  status : Z;
  data : option QueryResult.t;
  paymentRequired : option PaymentRequirementsResponse.t;
  paymentResponse : option string
}.
End GatewayResponse.

(** The first argument of [gatewayClient.queryDatabase]. *)
Module QueryRequest.
Record t := { publisherId : string; agentWallet : Address; sql : string }.
End QueryRequest.

(** The decoded payment response, read as [{ transaction?: string }]. *)
Module PaymentResponse.
Record t := { transaction : option string }.
End PaymentResponse.

(** Argument of [buildDomain]. *)
Module DomainParams.
Record t := {
  chainId : Z;
  verifyingContract : Address;
  name : option string;
  version : option string
}.
End DomainParams.

(** Argument of [buildAuthorizationMessage]. *)
Module AuthorizationParams.
Record t := {
  from : Address;
  to : Address;
  value : string;
  validAfter : Z;
  validBefore : Z
}.
End AuthorizationParams.

(** Modelled from the spec: the declarations of signing/eip712 are not
    part of the service file.  The domain carries the domain-separation
    parameters (chain id, verifying contract, protocol name and
    version); the authorization message carries payer, payee, value, the
    validity window in Unix seconds and a nonce; typed data pairs a
    domain with a message.  The service only reads [message.nonce],
    [typedData.domain] and [typedData.message]. *)
Module Domain.
Record t := {
  name : option string;
  version : option string;
  chainId : Z;
  verifyingContract : Address
}.
End Domain.

Module AuthorizationMessage.
Record t := {
  from : Address;
  to : Address;
  value : string;
  validAfter : Z;
  validBefore : Z;
  nonce : string
}.
End AuthorizationMessage.

Module TypedData.
Record t := { domain : Domain.t; message : AuthorizationMessage.t }.
End TypedData.

(** The wallet object held by the service. *)
Inductive WalletProvider := PrivateKeyWalletProvider.

(** The fields of a [SerenService] instance; [gatewayClient] is the
    collaborator behind the [gateway_*] calls. *)
Module SerenService.
Record t := {
  walletProvider : option WalletProvider;
  privateKey : string;
  gatewayUrl : string
}.
End SerenService.

(** [new SerenService(privateKey, gatewayUrl)]. *)
Definition constructor (privateKey gatewayUrl : string) : SerenService.t :=
  {| SerenService.walletProvider := None;
     SerenService.privateKey := privateKey;
     SerenService.gatewayUrl := gatewayUrl |}.

(* ===================================================================== *)
(** ** Thrown values, promises and calls to the collaborators *)
(* ===================================================================== *)

(** What a [catch] clause of the service can tell apart. *)
Inductive Thrown :=
| UserRejectedError (message : string)
| Error (message : string)
| NotAnError.

(** How a call (or an awaited promise) ends. *)
Inductive Outcome (A : Type) :=
| Resolved (a : A)
| Rejected (e : Thrown).
Arguments Resolved {A} a.
Arguments Rejected {A} e.

(** The calls the service makes to code outside itself, indexed by the
    type of their answer. *)
Inductive Call : Type -> Type :=
| wallet_connect (w : WalletProvider) (privateKey : option string)
    : Call (Outcome unit)
| wallet_isConnected (w : WalletProvider) : Call (Outcome bool)
| wallet_getAddress (w : WalletProvider) : Call (Outcome Address)
| wallet_signTypedData (w : WalletProvider)
    (domain : Domain.t) (message : AuthorizationMessage.t)
    : Call (Outcome Signature)
| gateway_queryDatabase (request : QueryRequest.t)
    (paymentPayload : option PaymentPayload.t)
    : Call (Outcome GatewayResponse.t)
| gateway_decodePaymentResponse (encoded : string)
    : Call (Outcome PaymentResponse.t)
| Date_now : Call Z
| buildDomain (params : DomainParams.t) : Call (Outcome Domain.t)
| buildAuthorizationMessage (params : AuthorizationParams.t)
    : Call (Outcome AuthorizationMessage.t)
| buildTypedData (domain : Domain.t) (message : AuthorizationMessage.t)
    : Call (Outcome TypedData.t).

(** A program: it returns, or makes a call and continues with the answer. *)
Inductive Task (R : Type) : Type :=
| Return (r : R)
| Perform {X : Type} (c : Call X) (k : X -> Task R).
Arguments Return {R} r.
Arguments Perform {R X} c k.

Fixpoint andThen {A B : Type} (t : Task A) (f : A -> Task B) : Task B :=
  match t with
  | Return a => f a
  | Perform c k => Perform c (fun x => andThen (k x) f)
  end.

(** A method of the service: it reads and updates the instance, makes
    calls, and returns or throws. *)
Definition Method (A : Type) : Type :=
  SerenService.t -> Task (Outcome A * SerenService.t).

#[export] Instance Monad_Method : Monad Method :=
  {| ret := fun A (a : A) => fun self => Return (Resolved a, self);
     bind := fun A B (m : Method A) (f : A -> Method B) => fun self =>
       andThen (m self) (fun r =>
         match r with
         | (Resolved a, self') => f a self'
         | (Rejected e, self') => Return (Rejected e, self')
         end) |}.

(** A call whose answer is an [Outcome]: a rejection is thrown. *)
Definition await {A : Type} (c : Call (Outcome A)) : Method A :=
  fun self => Perform c (fun r => Return (r, self)).

(** A call that cannot throw. *)
Definition perform {A : Type} (c : Call A) : Method A :=
  fun self => Perform c (fun a => Return (Resolved a, self)).

Definition this : Method SerenService.t :=
  fun self => Return (Resolved self, self).

Definition set_walletProvider (w : WalletProvider) : Method unit :=
  fun self =>
    Return (Resolved tt,
            {| SerenService.walletProvider := Some w;
               SerenService.privateKey := SerenService.privateKey self;
               SerenService.gatewayUrl := SerenService.gatewayUrl self |}).

(** [try { body } catch (error) { handler }]. *)
Definition try_catch {A : Type} (body : Method A) (handler : Thrown -> Method A)
  : Method A :=
  fun self =>
    andThen (body self) (fun r =>
      match r with
      | (Resolved a, self') => Return (Resolved a, self')
      | (Rejected e, self') => handler e self'
      end).

(* ===================================================================== *)
(** ** The service *)
(* ===================================================================== *)

(** [a ?? b]. *)
Definition nullish {A : Type} (a : option A) (b : A) : A :=
  match a with
  | Some x => x
  | None => b
  end.

(** [o?.field] for an optional field of an optional object. *)
Definition chain {A B : Type} (o : option A) (field : A -> option B) : option B :=
  match o with
  | Some x => field x
  | None => None
  end.

(** [getWalletProvider]: the cached provider, or a new one connected
    with the private key and then cached. *)
Definition getWalletProvider : Method WalletProvider :=
  self <- this ;;
  match SerenService.walletProvider self with
  | Some w => ret w
  | None =>
      let provider := PrivateKeyWalletProvider in
      await (wallet_connect provider (Some (SerenService.privateKey self))) ;;
      set_walletProvider provider ;;
      ret provider
  end.

(** [buildPaymentPayload(requirement, fromAddress, wallet)]. *)
Definition buildPaymentPayload (requirement : PaymentRequirement.t)
    (fromAddress : Address) (wallet : WalletProvider)
  : Method PaymentPayload.t :=
  let eip712Config := chain (PaymentRequirement.extra requirement) Extra.eip712 in
  domain <- await (buildDomain
    {| DomainParams.chainId :=
         nullish (chain eip712Config Eip712Config.chainId) 8453;
       DomainParams.verifyingContract :=
         nullish (chain eip712Config Eip712Config.verifyingContract)
                 (PaymentRequirement.asset requirement);
       DomainParams.name := chain eip712Config Eip712Config.name;
       DomainParams.version := chain eip712Config Eip712Config.version |}) ;;
  ms <- perform Date_now ;;
  let now := Math_floor_div ms 1000 in
  let validAfter := now - 60 in
  let validBefore := now + PaymentRequirement.maxTimeoutSeconds requirement in
  message <- await (buildAuthorizationMessage
    {| AuthorizationParams.from := fromAddress;
       AuthorizationParams.to := PaymentRequirement.payTo requirement;
       AuthorizationParams.value := PaymentRequirement.maxAmountRequired requirement;
       AuthorizationParams.validAfter := validAfter;
       AuthorizationParams.validBefore := validBefore |}) ;;
  typedData <- await (buildTypedData domain message) ;;
  signature <- await (wallet_signTypedData wallet
                        (TypedData.domain typedData) (TypedData.message typedData)) ;;
  ret {| PaymentPayload.x402Version := 1;
         PaymentPayload.scheme := PaymentRequirement.scheme requirement;
         PaymentPayload.network := PaymentRequirement.network requirement;
         PaymentPayload.payload :=
           {| SignedAuthorization.signature := signature;
              SignedAuthorization.authorization :=
                {| Authorization.from := fromAddress;
                   Authorization.to := PaymentRequirement.payTo requirement;
                   Authorization.value :=
                     PaymentRequirement.maxAmountRequired requirement;
                   Authorization.validAfter := Number_toString validAfter;
                   Authorization.validBefore := Number_toString validBefore;
                   Authorization.nonce := AuthorizationMessage.nonce message |} |} |}.

(** The [catch] clause of [executeQuery]. *)
Definition executeQuery_catch (error : Thrown) : Method ExecuteQueryResult.t :=
  match error with
  | UserRejectedError _ => ret (failure "User rejected the payment request")
  | Error message => ret (failure message)
  | NotAnError => ret (failure "Unknown error occurred")
  end.

(** The transaction hash of a paid result: from the settlement record
    when it has a transaction, else from the decoded payment response
    when there is one. *)
Definition extractTxHash (data : QueryResult.t) (paidResult : GatewayResponse.t)
  : Method (option string) :=
  match chain (QueryResult.settlement data)
              (fun s => if truthy (Settlement.transaction s)
                        then Some (Settlement.transaction s) else None) with
  | Some transaction => ret (Some transaction)
  | None =>
      match GatewayResponse.paymentResponse paidResult with
      | Some encoded =>
          if truthy encoded then
            paymentResponse <- await (gateway_decodePaymentResponse encoded) ;;
            ret (PaymentResponse.transaction paymentResponse)
          else ret None
      | None => ret None
      end
  end.

(** The request sent in both phases. *)
Definition queryRequest (params : ExecuteQueryParams.t) (agentWallet : Address)
  : QueryRequest.t :=
  {| QueryRequest.publisherId := ExecuteQueryParams.providerId params;
     QueryRequest.agentWallet := agentWallet;
     QueryRequest.sql := ExecuteQueryParams.sql params |}.

(** [executeQuery(params)]. *)
Definition executeQuery (params : ExecuteQueryParams.t)
  : Method ExecuteQueryResult.t :=
  if falsy (ExecuteQueryParams.providerId params) then
    ret (failure "providerId is required")
  else if falsy (ExecuteQueryParams.sql params) then
    ret (failure "sql is required")
  else
    let trimmedSql := toUpperCase (trim (ExecuteQueryParams.sql params)) in
    if negb (startsWith trimmedSql "SELECT") then
      ret (failure "Only SELECT queries are allowed")
    else
      try_catch
        (wallet <- getWalletProvider ;;
         connected <- await (wallet_isConnected wallet) ;;
         (if negb connected then await (wallet_connect wallet None) else ret tt) ;;
         agentWallet <- await (wallet_getAddress wallet) ;;
         initialResult <-
           await (gateway_queryDatabase (queryRequest params agentWallet) None) ;;
         match GatewayResponse.status initialResult =? 402,
               GatewayResponse.paymentRequired initialResult with
         | true, Some paymentRequired =>
             match PaymentRequirementsResponse.accepts paymentRequired with
             | [] => ret (failure "No payment method available")
             | paymentRequirement :: _ =>
                 paymentPayload <-
                   buildPaymentPayload paymentRequirement agentWallet wallet ;;
                 paidResult <-
                   await (gateway_queryDatabase (queryRequest params agentWallet)
                                                (Some paymentPayload)) ;;
                 match GatewayResponse.data paidResult with
                 | None => ret (failure "No data returned from gateway")
                 | Some data =>
                     txHash <- extractTxHash data paidResult ;;
                     ret {| ExecuteQueryResult.success := true;
                            ExecuteQueryResult.rows := Some (QueryResult.rows data);
                            ExecuteQueryResult.rowCount :=
                              Some (QueryResult.rowCount data);
                            ExecuteQueryResult.estimatedCost :=
                              Some (QueryResult.estimatedCost data);
                            ExecuteQueryResult.actualCost :=
                              Some (QueryResult.actualCost data);
                            ExecuteQueryResult.executionTime :=
                              Some (QueryResult.executionTime data);
                            ExecuteQueryResult.txHash := txHash;
                            ExecuteQueryResult.error := None |}
                 end
             end
         | _, _ =>
             match GatewayResponse.data initialResult with
             | Some data =>
                 ret {| ExecuteQueryResult.success := true;
                        ExecuteQueryResult.rows := Some (QueryResult.rows data);
                        ExecuteQueryResult.rowCount :=
                          Some (QueryResult.rowCount data);
                        ExecuteQueryResult.estimatedCost :=
                          Some (QueryResult.estimatedCost data);
                        ExecuteQueryResult.actualCost :=
                          Some (QueryResult.actualCost data);
                        ExecuteQueryResult.executionTime :=
                          Some (QueryResult.executionTime data);
                        ExecuteQueryResult.txHash := None;
                        ExecuteQueryResult.error := None |}
             | None => ret (failure "Unexpected response from gateway")
             end
         end)
        executeQuery_catch.

(* ===================================================================== *)
(** ** Running a program against an environment *)
(* ===================================================================== *)

(** One answered call. *)
Inductive Interaction : Type :=
| answered {X : Type} (c : Call X) (x : X).

Definition Trace := list Interaction.

(** An environment: some state and an answer to every call. *)
Record World := {
  world : Type;
  respond : forall X : Type, Call X -> world -> X * world
}.

Fixpoint run {R : Type} (W : World) (t : Task R) (w : world W)
  : R * Trace * world W :=
  match t with
  | Return r => (r, [], w)
  | Perform c k =>
      let '(x, w1) := respond W _ c w in
      let '(r, tr, w2) := run W (k x) w1 in
      (r, answered c x :: tr, w2)
  end.


Definition resultOf {R S : Type} (x : (Outcome R * SerenService.t) * Trace * S)
  : Outcome R := fst (fst (fst x)).

Definition instanceOf {R S : Type} (x : (Outcome R * SerenService.t) * Trace * S)
  : SerenService.t := snd (fst (fst x)).

Definition traceOf {R S : Type} (x : (Outcome R * SerenService.t) * Trace * S)
  : Trace := snd (fst x).

(** The interactions of one kind, in order. *)
Fixpoint collect {A : Type} (f : Interaction -> option A) (tr : Trace) : list A :=
  match tr with
  | [] => []
  | i :: rest =>
      match f i with
      | Some a => a :: collect f rest
      | None => collect f rest
      end
  end.

(** Requests to the gateway: request, attached payload, answer. *)
Definition gatewayCall (i : Interaction)
  : option (QueryRequest.t * option PaymentPayload.t * Outcome GatewayResponse.t) :=
  match i with
  | answered c x =>
      match c in Call X return X -> option _ with
      | gateway_queryDatabase request paymentPayload =>
          fun r => Some (request, paymentPayload, r)
      | _ => fun _ => None
      end x
  end.

(** Signature requests: domain, message, answer. *)
Definition signCall (i : Interaction)
  : option (Domain.t * AuthorizationMessage.t * Outcome Signature) :=
  match i with
  | answered c x =>
      match c in Call X return X -> option _ with
      | wallet_signTypedData _ domain message => fun r => Some (domain, message, r)
      | _ => fun _ => None
      end x
  end.


Definition domainRequest (i : Interaction)
  : option (DomainParams.t * Outcome Domain.t) :=
  match i with
  | answered c x =>
      match c in Call X return X -> option _ with
      | buildDomain params => fun r => Some (params, r)
      | _ => fun _ => None
      end x
  end.

Definition typedDataRequest (i : Interaction)
  : option (Domain.t * AuthorizationMessage.t * Outcome TypedData.t) :=
  match i with
  | answered c x =>
      match c in Call X return X -> option _ with
      | buildTypedData domain message => fun r => Some (domain, message, r)
      | _ => fun _ => None
      end x
  end.

Definition messageRequest (i : Interaction)
  : option (AuthorizationParams.t * Outcome AuthorizationMessage.t) :=
  match i with
  | answered c x =>
      match c in Call X return X -> option _ with
      | buildAuthorizationMessage params => fun r => Some (params, r)
      | _ => fun _ => None
      end x
  end.

Definition clockRead (i : Interaction) : option Z :=
  match i with
  | answered c x =>
      match c in Call X return X -> option Z with
      | Date_now => fun ms => Some ms
      | _ => fun _ => None
      end x
  end.

(** The value a call threw, if it threw. *)
Definition thrownBy (i : Interaction) : option Thrown :=
  let rejection {A : Type} (r : Outcome A) : option Thrown :=
    match r with
    | Resolved _ => None
    | Rejected e => Some e
    end in
  match i with
  | answered c x =>
      match c in Call X return X -> option Thrown with
      | Date_now => fun _ => None
      | wallet_connect _ _ => rejection
      | wallet_isConnected _ => rejection
      | wallet_getAddress _ => rejection
      | wallet_signTypedData _ _ _ => rejection
      | gateway_queryDatabase _ _ => rejection
      | gateway_decodePaymentResponse _ => rejection
      | buildDomain _ => rejection
      | buildAuthorizationMessage _ => rejection
      | buildTypedData _ _ => rejection
      end x
  end.

Definition gatewayCalls : Trace -> _ := collect gatewayCall.
Definition signCalls : Trace -> _ := collect signCall.
Definition domainRequests : Trace -> _ := collect domainRequest.
Definition messageRequests : Trace -> _ := collect messageRequest.
Definition typedDataRequests : Trace -> _ := collect typedDataRequest.
Definition clockReads : Trace -> _ := collect clockRead.
Definition thrown : Trace -> _ := collect thrownBy.

(** A property of every run of a program, whatever the answers. *)
Fixpoint always {R : Type} (t : Task R) (Q : Trace -> R -> Prop) : Prop :=
  match t with
  | Return r => Q [] r
  | Perform c k =>
      forall x, always (k x) (fun tr r => Q (answered c x :: tr) r)
  end.

(* ===================================================================== *)
(** ** A scripted environment, after the mocks of tests/unit *)
(* ===================================================================== *)

(** Fixed answers for the wallet, the clock and the decoder; the gateway
    answers from a queue, one entry per request
    ([mockResolvedValueOnce]).  The EIP-712 helpers copy their arguments
    and use the nonce of the script. *)
Record Mock := {
  mock_connect : Outcome unit;
  mock_isConnected : Outcome bool;
  mock_getAddress : Outcome Address;
  mock_signTypedData : Outcome Signature;
  mock_decodePaymentResponse : Outcome PaymentResponse.t;
  mock_now : Z;
  mock_nonce : string
}.

Definition mock_respond (m : Mock) (X : Type) (c : Call X)
    (queue : list (Outcome GatewayResponse.t))
  : X * list (Outcome GatewayResponse.t) :=
  match c in Call X return X * list (Outcome GatewayResponse.t) with
  | wallet_connect _ _ => (mock_connect m, queue)
  | wallet_isConnected _ => (mock_isConnected m, queue)
  | wallet_getAddress _ => (mock_getAddress m, queue)
  | wallet_signTypedData _ _ _ => (mock_signTypedData m, queue)
  | gateway_queryDatabase _ _ =>
      match queue with
      | r :: rest => (r, rest)
      | [] => (Rejected (Error "no mocked response left"), [])
      end
  | gateway_decodePaymentResponse _ => (mock_decodePaymentResponse m, queue)
  | Date_now => (mock_now m, queue)
  | buildDomain p =>
      (Resolved {| Domain.name := DomainParams.name p;
                   Domain.version := DomainParams.version p;
                   Domain.chainId := DomainParams.chainId p;
                   Domain.verifyingContract := DomainParams.verifyingContract p |},
       queue)
  | buildAuthorizationMessage p =>
      (Resolved {| AuthorizationMessage.from := AuthorizationParams.from p;
                   AuthorizationMessage.to := AuthorizationParams.to p;
                   AuthorizationMessage.value := AuthorizationParams.value p;
                   AuthorizationMessage.validAfter := AuthorizationParams.validAfter p;
                   AuthorizationMessage.validBefore := AuthorizationParams.validBefore p;
                   AuthorizationMessage.nonce := mock_nonce m |},
       queue)
  | buildTypedData d msg =>
      (Resolved {| TypedData.domain := d; TypedData.message := msg |}, queue)
  end.

Definition mockWorld (m : Mock) : World :=
  {| world := list (Outcome GatewayResponse.t); respond := mock_respond m |}.

(** The wallet of the tests: connected, one address, one signature. *)
Definition createMockWallet : Mock :=
  {| mock_connect := Resolved tt;
     mock_isConnected := Resolved true;
     mock_getAddress := Resolved "0x1234567890123456789012345678901234567890";
     mock_signTypedData := Resolved "0xabab";
     mock_decodePaymentResponse :=
       Resolved {| PaymentResponse.transaction := Some "0xtx123" |};
     mock_now := 1700000000123;
     mock_nonce := "0x00000000000000000000000000000000000000000000000000000000000000a1" |}.

(** The payment requirement of the tests, with a chosen timeout. *)
Definition testRequirement (maxTimeoutSeconds : Z) : PaymentRequirement.t :=
  {| PaymentRequirement.scheme := "exact";
     PaymentRequirement.network := "base-mainnet";
     PaymentRequirement.maxAmountRequired := "1000000";
     PaymentRequirement.asset := "0xusdc";
     PaymentRequirement.payTo := "0xgateway";
     PaymentRequirement.resource := "/api/query";
     PaymentRequirement.description := "Query";
     PaymentRequirement.mimeType := "application/json";
     PaymentRequirement.maxTimeoutSeconds := maxTimeoutSeconds;
     PaymentRequirement.extra := None |}.

Definition paymentRequiredResponse (accepts : list PaymentRequirement.t)
  : GatewayResponse.t :=
  {| GatewayResponse.status := 402;
     GatewayResponse.data := None;
     GatewayResponse.paymentRequired :=
       Some {| PaymentRequirementsResponse.x402Version := 1;
               PaymentRequirementsResponse.accepts := accepts |};
     GatewayResponse.paymentResponse := None |}.

Definition testData : QueryResult.t :=
  {| QueryResult.rows := ["{count: 42}"];
     QueryResult.rowCount := 1;
     QueryResult.estimatedCost := "0.025";
     QueryResult.actualCost := "0.020";
     QueryResult.executionTime := 100;
     QueryResult.settlement :=
       Some {| Settlement.payer := "0x1234567890123456789012345678901234567890";
               Settlement.transaction := "0xtx456";
               Settlement.network := "base-mainnet" |} |}.

Definition okResponse (data : option QueryResult.t) : GatewayResponse.t :=
  {| GatewayResponse.status := 200;
     GatewayResponse.data := data;
     GatewayResponse.paymentRequired := None;
     GatewayResponse.paymentResponse := None |}.

Definition testService : SerenService.t := constructor "0xkey" "https://gateway".

Definition selectParams (sql : string) : ExecuteQueryParams.t :=
  {| ExecuteQueryParams.sql := sql; ExecuteQueryParams.providerId := "publisher-uuid" |}.

(** The script of the payment-flow test: a payment-required answer with
    one method, then the paid answer. *)
Definition paidScript (maxTimeoutSeconds : Z) (paid : GatewayResponse.t)
  : list (Outcome GatewayResponse.t) :=
  [Resolved (paymentRequiredResponse [testRequirement maxTimeoutSeconds]);
   Resolved paid].

(** A wallet whose user declines to sign. *)
Definition rejectingWallet : Mock :=
  {| mock_connect := mock_connect createMockWallet;
     mock_isConnected := mock_isConnected createMockWallet;
     mock_getAddress := mock_getAddress createMockWallet;
     mock_signTypedData := Rejected (UserRejectedError "declined");
     mock_decodePaymentResponse := mock_decodePaymentResponse createMockWallet;
     mock_now := mock_now createMockWallet;
     mock_nonce := mock_nonce createMockWallet |}.

(** A payment-required answer that also carries a body. *)
Definition paymentRequiredWithBody : GatewayResponse.t :=
  {| GatewayResponse.status := 402;
     GatewayResponse.data := Some testData;
     GatewayResponse.paymentRequired :=
       GatewayResponse.paymentRequired (paymentRequiredResponse [testRequirement 300]);
     GatewayResponse.paymentResponse := None |}.

(** A requirement that names its own domain. *)
Definition requirementWithDomain : PaymentRequirement.t :=
  {| PaymentRequirement.scheme := "exact";
     PaymentRequirement.network := "base-sepolia";
     PaymentRequirement.maxAmountRequired := "1000000";
     PaymentRequirement.asset := "0xusdc";
     PaymentRequirement.payTo := "0xgateway";
     PaymentRequirement.resource := "/api/query";
     PaymentRequirement.description := "Query";
     PaymentRequirement.mimeType := "application/json";
     PaymentRequirement.maxTimeoutSeconds := 300;
     PaymentRequirement.extra :=
       Some {| Extra.eip712 :=
                 Some {| Eip712Config.chainId := Some 84532;
                         Eip712Config.verifyingContract := Some "0xcontract";
                         Eip712Config.name := Some "USD Coin";
                         Eip712Config.version := Some "2" |} |} |}.

(* ===================================================================== *)
(** ** Readings of the specification used to test its claims *)
(* ===================================================================== *)





(** "The chain id falls back to the default [callerDefault] supplied by
    the caller": whenever the requirement names no chain id, every
    domain built for it has chain id [callerDefault]. *)
Definition chainIdFallsBackTo (callerDefault : Z) : Prop :=
  forall (W : World) (w : world W) (requirement : PaymentRequirement.t)
         (fromAddress : Address) (wallet : WalletProvider)
         (self : SerenService.t) params answer,
    chain (chain (PaymentRequirement.extra requirement) Extra.eip712)
          Eip712Config.chainId = None ->
    In (params, answer)
       (domainRequests
          (traceOf (run W (buildPaymentPayload requirement fromAddress wallet self) w))) ->
    DomainParams.chainId params = callerDefault.

(* ===================================================================== *)
(** ** More views of a trace *)
(* ===================================================================== *)

(** Calls to [connect]: the key passed (none for [wallet.connect()])
    and the answer. *)
Definition connectCall (i : Interaction) : option (option string * Outcome unit) :=
  match i with
  | answered c x =>
      match c in Call X return X -> option _ with
      | wallet_connect _ privateKey => fun r => Some (privateKey, r)
      | _ => fun _ => None
      end x
  end.

Definition isConnectedCall (i : Interaction) : option (Outcome bool) :=
  match i with
  | answered c x =>
      match c in Call X return X -> option _ with
      | wallet_isConnected _ => fun r => Some r
      | _ => fun _ => None
      end x
  end.

Definition getAddressCall (i : Interaction) : option (Outcome Address) :=
  match i with
  | answered c x =>
      match c in Call X return X -> option _ with
      | wallet_getAddress _ => fun r => Some r
      | _ => fun _ => None
      end x
  end.

Definition decodeCall (i : Interaction)
  : option (string * Outcome PaymentResponse.t) :=
  match i with
  | answered c x =>
      match c in Call X return X -> option _ with
      | gateway_decodePaymentResponse encoded => fun r => Some (encoded, r)
      | _ => fun _ => None
      end x
  end.

Definition connectCalls : Trace -> _ := collect connectCall.
Definition isConnectedCalls : Trace -> _ := collect isConnectedCall.
Definition getAddressCalls : Trace -> _ := collect getAddressCall.
Definition decodeCalls : Trace -> _ := collect decodeCall.

(** [error instanceof Error ? error.message : fallback].
    [UserRejectedError] is an error class with a message. *)
Definition messageOr (error : Thrown) (fallback : string) : string :=
  match error with
  | UserRejectedError message => message
  | Error message => message
  | NotAnError => fallback
  end.

(** [a || b] on strings that may be undefined. *)
Definition orElse (a : option string) (b : string) : string :=
  match a with
  | Some s => if truthy s then s else b
  | None => b
  end.

(* ===================================================================== *)
(** ** The web API: POST /api/execute-sql (server.ts) *)
(* ===================================================================== *)

(** A field of the JSON request body: missing, a string, or some other
    JSON value. *)
Inductive BodyField :=
| Absent
| Text (s : string)
| NotText.

(** [req.body]: an object, of which the handlers read [sql] and
    [providerId], or something that is not an object. *)
Inductive RequestBody :=
| NotAnObject
| Object (sql providerId : BodyField).

(** An issue reported by the schema check: the code and the path of the
    field, and for a too-short string the message of the schema. *)
Inductive ZodIssue :=
| invalid_type (path : string)
| too_small (path message : string).

(** [z.string().min(1, message)] applied to one field. *)
Definition string_min_1 (path message : string) (f : BodyField)
  : string + list ZodIssue :=
  match f with
  | Text s => if falsy s then inr [too_small path message] else inl s
  | Absent | NotText => inr [invalid_type path]
  end.

(** [executeSqlSchema.safeParse(req.body)]. *)
Definition executeSqlSchema_safeParse (body : RequestBody)
  : ExecuteQueryParams.t + list ZodIssue :=
  match body with
  | NotAnObject => inr [invalid_type ""]
  | Object sql providerId =>
      match string_min_1 "sql" "SQL query is required" sql,
            string_min_1 "providerId" "providerId is required" providerId with
      | inl s, inl p =>
          inl {| ExecuteQueryParams.sql := s; ExecuteQueryParams.providerId := p |}
      | inl _, inr issues => inr issues
      | inr issues, inl _ => inr issues
      | inr issues, inr issues' => inr (issues ++ issues')%list
      end
  end.

(** [res.status(code).json(body)], with the [details] of a 400. *)
Module Reply.
Record t := {
  status : Z;
  json : ExecuteQueryResult.t;
  details : option (list ZodIssue)
}.
End Reply.

(** What a handler leaves behind: the reply, and what it wrote with
    [console.error]. *)
Module Served.
Record t := { reply : Reply.t; consoleError : list Thrown }.
End Served.

Definition respond_json (status : Z) (json : ExecuteQueryResult.t)
    (details : option (list ZodIssue)) : Served.t :=
  {| Served.reply := {| Reply.status := status; Reply.json := json;
                        Reply.details := details |};
     Served.consoleError := [] |}.

(** The handler of POST /api/execute-sql, on the service instance of the
    server. *)
Definition post_execute_sql (body : RequestBody) : Method Served.t :=
  try_catch
    (match executeSqlSchema_safeParse body with
     | inr issues =>
         ret (respond_json 400 (failure "Invalid request body") (Some issues))
     | inl params =>
         result <- executeQuery
                     {| ExecuteQueryParams.sql := ExecuteQueryParams.sql params;
                        ExecuteQueryParams.providerId :=
                          ExecuteQueryParams.providerId params |} ;;
         if ExecuteQueryResult.success result then
           ret (respond_json 200
                  {| ExecuteQueryResult.success := true;
                     ExecuteQueryResult.rows := ExecuteQueryResult.rows result;
                     ExecuteQueryResult.rowCount :=
                       ExecuteQueryResult.rowCount result;
                     ExecuteQueryResult.estimatedCost :=
                       ExecuteQueryResult.estimatedCost result;
                     ExecuteQueryResult.actualCost :=
                       ExecuteQueryResult.actualCost result;
                     ExecuteQueryResult.executionTime :=
                       ExecuteQueryResult.executionTime result;
                     ExecuteQueryResult.txHash := ExecuteQueryResult.txHash result;
                     ExecuteQueryResult.error := None |}
                  None)
         else
           ret (respond_json 500
                  (failure (orElse (ExecuteQueryResult.error result)
                                   "Query execution failed"))
                  None)
     end)
    (fun error =>
       ret {| Served.reply :=
                {| Reply.status := 500;
                   Reply.json := failure (messageOr error "Unknown error occurred");
                   Reply.details := None |};
              Served.consoleError := [error] |}).

(** The last interaction of a trace. *)
Fixpoint lastOf (tr : Trace) : option Interaction :=
  match tr with
  | [] => None
  | [i] => Some i
  | _ :: rest => lastOf rest
  end.

(** A wallet that reports it is not connected. *)
Definition disconnectedWallet : Mock :=
  {| mock_connect := mock_connect createMockWallet;
     mock_isConnected := Resolved false;
     mock_getAddress := mock_getAddress createMockWallet;
     mock_signTypedData := mock_signTypedData createMockWallet;
     mock_decodePaymentResponse := mock_decodePaymentResponse createMockWallet;
     mock_now := mock_now createMockWallet;
     mock_nonce := mock_nonce createMockWallet |}.


(** A paid answer settled out of band: no settlement record, a payment
    response to decode. *)
Definition unsettledData : QueryResult.t :=
  {| QueryResult.rows := QueryResult.rows testData;
     QueryResult.rowCount := QueryResult.rowCount testData;
     QueryResult.estimatedCost := QueryResult.estimatedCost testData;
     QueryResult.actualCost := QueryResult.actualCost testData;
     QueryResult.executionTime := QueryResult.executionTime testData;
     QueryResult.settlement := None |}.

Definition headerSettledResponse : GatewayResponse.t :=
  {| GatewayResponse.status := 200;
     GatewayResponse.data := Some unsettledData;
     GatewayResponse.paymentRequired := None;
     GatewayResponse.paymentResponse := Some "eyJ0eCI6MX0=" |}.

(* ===================================================================== *)
(** ** Programs over any family of calls *)
(* ===================================================================== *)

(** The code outside the payment flow talks to other collaborators
    ([fetch], the catalog methods of the gateway client).  The same
    construction as [Task], for any family [E] of calls. *)
Section Programs.

Variable E : Type -> Type.

Inductive Program (R : Type) : Type :=
| Done (r : R)
| Ask {X : Type} (e : E X) (k : X -> Program R).

Fixpoint next {A B : Type} (p : Program A) (f : A -> Program B) : Program B :=
  match p with
  | Done _ a => f a
  | Ask _ e k => Ask _ e (fun x => next (k x) f)
  end.

(** One answered call. *)
Inductive Asked : Type :=
| asked {X : Type} (e : E X) (x : X).

Record Env := {
  env : Type;
  answer : forall X : Type, E X -> env -> X * env
}.

Fixpoint exec {R : Type} (V : Env) (p : Program R) (v : env V)
  : R * list Asked * env V :=
  match p with
  | Done _ r => (r, [], v)
  | Ask _ e k =>
      let '(x, v1) := answer V _ e v in
      let '(r, tr, v2) := exec V (k x) v1 in
      (r, asked e x :: tr, v2)
  end.

(** A property of every run. *)
Fixpoint every {R : Type} (p : Program R) (Q : list Asked -> R -> Prop) : Prop :=
  match p with
  | Done _ r => Q [] r
  | Ask _ e k => forall x, every (k x) (fun tr r => Q (asked e x :: tr) r)
  end.

Fixpoint pick {A : Type} (f : Asked -> option A) (tr : list Asked) : list A :=
  match tr with
  | [] => []
  | i :: rest =>
      match f i with
      | Some a => a :: pick f rest
      | None => pick f rest
      end
  end.

(** An async function: it makes calls and resolves or rejects. *)
Definition Async (A : Type) : Type := Program (Outcome A).

Definition Async_ret {A : Type} (a : A) : Async A := Done _ (Resolved a).

Definition Async_bind {A B : Type} (m : Async A) (f : A -> Async B) : Async B :=
  next m (fun r =>
    match r with
    | Resolved a => f a
    | Rejected e => Done _ (Rejected e)
    end).

(** [await] of a call that may reject. *)
Definition call {A : Type} (e : E (Outcome A)) : Async A :=
  Ask _ e (fun r => Done _ r).

(** [try { body } catch (error) { handler }]. *)
Definition attempt {A : Type} (body : Async A) (handler : Thrown -> Async A)
  : Async A :=
  next body (fun r =>
    match r with
    | Resolved a => Done _ (Resolved a)
    | Rejected e => handler e
    end).

End Programs.

Arguments Done {E R} r.
Arguments Ask {E R X} e k.
Arguments next {E A B} p f.
Arguments asked {E X} e x.
Arguments env {E} V : rename.
Arguments answer {E} V X e v : rename.
Arguments exec {E R} V p v.
Arguments every {E R} p Q.
Arguments pick {E A} f tr.
Arguments Async_ret {E A} a.
Arguments Async_bind {E A B} m f.
Arguments call {E A} e.
Arguments attempt {E A} body handler.

#[export] Instance Monad_Async (E : Type -> Type) : Monad (Async E) :=
  {| ret := fun A => @Async_ret E A;
     bind := fun A B => @Async_bind E A B |}.

(* ===================================================================== *)
(** ** executeAdminQuery *)
(* ===================================================================== *)

(** [s.includes(sub)]. *)
Fixpoint includes (s sub : string) : bool :=
  String.prefix sub s
  || match s with
     | EmptyString => false
     | String _ r => includes r sub
     end.

Definition hexDigit (n : nat) : ascii :=
  match String.get n "0123456789abcdef" with
  | Some c => c
  | None => "0"%char
  end.

(** The JSON escape of one character: the short escapes, [\u00XX] for
    the other control characters, the character itself otherwise. *)
Definition QuoteJSONChar (c : ascii) : string :=
  let n := nat_of_ascii c in
  if (n =? 8)%nat then "\b"
  else if (n =? 9)%nat then "\t"
  else if (n =? 10)%nat then "\n"
  else if (n =? 12)%nat then "\f"
  else if (n =? 13)%nat then "\r"
  else if (n =? 34)%nat then String "\" (String c EmptyString)
  else if (n =? 92)%nat then "\\"
  else if (n <? 32)%nat then
    "\u00" ++ String (hexDigit (n / 16)) (String (hexDigit (n mod 16)) EmptyString)
  else String c EmptyString.

Fixpoint QuoteJSONChars (s : string) : string :=
  match s with
  | EmptyString => EmptyString
  | String c r => QuoteJSONChar c ++ QuoteJSONChars r
  end.

(** [JSON.stringify(s)] for a string [s]. *)
Definition QuoteJSONString (s : string) : string :=
  String "034" (QuoteJSONChars s ++ String "034" EmptyString).

(** [JSON.stringify({ sql: s })]. *)
Definition JSON_stringify_sql (s : string) : string :=
  "{" ++ QuoteJSONString "sql" ++ ":" ++ QuoteJSONString s ++ "}".

Module RequestInit.
Record t := {
  method : string;
  headers : list (string * string);
  body : string
}.
End RequestInit.

(** A response of [fetch]; its body is read through further calls. *)
Module Response.
Record t := { status : Z }.
End Response.

(** [response.ok]: the status is in the range 200-299. *)
Definition Response_ok (response : Response.t) : bool :=
  (200 <=? Response.status response) && (Response.status response <=? 299).

(** The parsed error body, read as [{ error?: string }]. *)
Module ErrorBody.
Record t := { error : option string }.
End ErrorBody.

Inductive Fetch : Type -> Type :=
| fetch (url : string) (init : RequestInit.t) : Fetch (Outcome Response.t)
| Response_text (response : Response.t) : Fetch (Outcome string)
| Response_json (response : Response.t) : Fetch (Outcome QueryResult.t)
| JSON_parse (text : string) : Fetch (Outcome ErrorBody.t).

(** [executeAdminQuery(sql, apiKey)] on the instance [self]. *)
Definition executeAdminQuery (self : SerenService.t) (sql apiKey : string)
  : Async Fetch ExecuteQueryResult.t :=
  if falsy sql || falsy (trim sql) then
    ret (failure "SQL query is required")
  else if falsy apiKey || falsy (trim apiKey) then
    ret (failure "API key is required for admin operations")
  else
    attempt
      (let url := SerenService.gatewayUrl self ++ "/api/query" in
       let headers := [("Content-Type", "application/json");
                       ("Authorization", "Bearer " ++ apiKey)] in
       let body := JSON_stringify_sql (trim sql) in
       response <- call (fetch url {| RequestInit.method := "POST";
                                      RequestInit.headers := headers;
                                      RequestInit.body := body |}) ;;
       if (Response.status response =? 401) || (Response.status response =? 403)
       then
         ret (failure
                "Admin authentication failed. Please check your SEREN_API_KEY.")
       else if negb (Response_ok response) then
         errorText <- call (Response_text response) ;;
         errorBody <-
           attempt (call (JSON_parse errorText))
             (fun _ =>
                ret {| ErrorBody.error :=
                         Some (if truthy errorText then errorText
                               else "HTTP "
                                    ++ Number_toString (Response.status response)) |}) ;;
         ret (failure
                (orElse (ErrorBody.error errorBody)
                        ("Query failed with status "
                         ++ Number_toString (Response.status response))))
       else
         data <- call (Response_json response) ;;
         ret {| ExecuteQueryResult.success := true;
                ExecuteQueryResult.rows := Some (QueryResult.rows data);
                ExecuteQueryResult.rowCount := Some (QueryResult.rowCount data);
                ExecuteQueryResult.estimatedCost :=
                  Some (QueryResult.estimatedCost data);
                ExecuteQueryResult.actualCost := Some (QueryResult.actualCost data);
                ExecuteQueryResult.executionTime :=
                  Some (QueryResult.executionTime data);
                ExecuteQueryResult.txHash := None;
                ExecuteQueryResult.error := None |})
      (fun error => ret (failure (messageOr error "Unknown error occurred"))).

(** Requests sent with [fetch]: URL, options, answer. *)
Definition fetchCall (i : Asked Fetch)
  : option (string * RequestInit.t * Outcome Response.t) :=
  match i with
  | asked e x =>
      match e in Fetch X return X -> option _ with
      | fetch url init => fun r => Some (url, init, r)
      | _ => fun _ => None
      end x
  end.

(** Reads of a response body, as text or as JSON. *)
Definition bodyRead (i : Asked Fetch) : option Response.t :=
  match i with
  | asked e _ =>
      match e with
      | Response_text response | Response_json response => Some response
      | _ => None
      end
  end.

Definition textRead (i : Asked Fetch) : option (Outcome string) :=
  match i with
  | asked e x =>
      match e in Fetch X return X -> option _ with
      | Response_text _ => fun r => Some r
      | _ => fun _ => None
      end x
  end.

Definition jsonRead (i : Asked Fetch) : option (Outcome QueryResult.t) :=
  match i with
  | asked e x =>
      match e in Fetch X return X -> option _ with
      | Response_json _ => fun r => Some r
      | _ => fun _ => None
      end x
  end.

Definition parseCall (i : Asked Fetch) : option (string * Outcome ErrorBody.t) :=
  match i with
  | asked e x =>
      match e in Fetch X return X -> option _ with
      | JSON_parse text => fun r => Some (text, r)
      | _ => fun _ => None
      end x
  end.

(** A scripted gateway for [fetch]: one response, its body as text, and
    a parser that accepts exactly the texts listed with their parse. *)
Record MockFetch := {
  mock_fetch : Outcome Response.t;
  mock_text : Outcome string;
  mock_json : Outcome QueryResult.t;
  mock_parse : string -> Outcome ErrorBody.t
}.

Definition mockFetch_answer (m : MockFetch) (X : Type) (e : Fetch X) (v : unit)
  : X * unit :=
  match e in Fetch X return X * unit with
  | fetch _ _ => (mock_fetch m, v)
  | Response_text _ => (mock_text m, v)
  | Response_json _ => (mock_json m, v)
  | JSON_parse text => (mock_parse m text, v)
  end.

Definition mockFetch (m : MockFetch) : Env Fetch :=
  {| env := unit; answer := mockFetch_answer m |}.

(** A gateway that answers with the given status and text body, the
    text being parsed as given. *)
Definition gatewayAnswering (status : Z) (text : string)
    (parsed : Outcome ErrorBody.t) : MockFetch :=
  {| mock_fetch := Resolved {| Response.status := status |};
     mock_text := Resolved text;
     mock_json := Resolved testData;
     mock_parse := fun _ => parsed |}.

(* ===================================================================== *)
(** ** Reasoning about every run *)
(* ===================================================================== *)

Lemma run_always {R : Type} (W : World) (t : Task R) :
  forall (Q : Trace -> R -> Prop) (w : world W),
    always t Q -> Q (snd (fst (run W t w))) (fst (fst (run W t w))).
Proof.
  induction t as [r | X c k IH]; intros Q w Hall.
  - exact Hall.
  - simpl in *.
    destruct (respond W X c w) as [x w1] eqn:Hx.
    specialize (IH x _ w1 (Hall x)).
    destruct (run W (k x) w1) as [[r tr] w2]. exact IH.
Qed.

Lemma every_run {R : Type} (W : World) (t : Task (Outcome R * SerenService.t))
    (w : world W) (P : Outcome R -> SerenService.t -> Trace -> Prop) :
  always t (fun tr r => P (fst r) (snd r) tr) ->
  P (resultOf (run W t w)) (instanceOf (run W t w)) (traceOf (run W t w)).
Proof.
  intros Hall. exact (run_always W t _ w Hall).
Qed.

#[local] Arguments Math_floor_div : simpl never.
#[local] Arguments Number_toString : simpl never.
#[local] Arguments startsWith : simpl never.
#[local] Arguments toUpperCase : simpl never.
#[local] Arguments trim : simpl never.

(** The value a stuck program is waiting to inspect. *)
Ltac scrutinee t :=
  lazymatch t with
  | andThen ?t' _ => scrutinee t'
  | match ?x with _ => _ end => x
  | ?f _ => scrutinee f
  end.

Ltac branch :=
  lazymatch goal with
  | |- always ?t _ => let x := scrutinee t in destruct x eqn:?
  | |- forall x : Outcome _, _ => intros [?|?]
  | |- forall x : Z, _ => intros ?
  end.

Ltac explore :=
  repeat (cbn; unfold extractTxHash, executeQuery_catch; cbn; try branch).

(** Reduce a statement about one run to a statement about all of them. *)
Ltac all_runs :=
  lazymatch goal with
  | |- context [run ?W ?t ?w] =>
      pattern (resultOf (run W t w)), (instanceOf (run W t w)),
              (traceOf (run W t w));
      apply every_run
  end.

(* ===================================================================== *)
(** ** Strings *)
(* ===================================================================== *)






(* ===================================================================== *)
(** ** The model on the cases of tests/unit *)
(* ===================================================================== *)

Example trim_toUpperCase_sample :
  toUpperCase (trim "  select * from t ") = "SELECT * FROM T".
Proof. reflexivity. Qed.

Example Number_toString_samples :
  Number_toString 1700000300 = "1700000300"
  /\ Number_toString 0 = "0"
  /\ Number_toString (-60) = "-60".
Proof. repeat split. Qed.

(** "should handle 402 response and retry with payment". *)
Example payment_flow_sample :
  resultOf (run (mockWorld createMockWallet)
                (executeQuery (selectParams "SELECT COUNT(*) FROM orders") testService)
                (paidScript 300 (okResponse (Some testData))))
  = Resolved
      {| ExecuteQueryResult.success := true;
         ExecuteQueryResult.rows := Some ["{count: 42}"];
         ExecuteQueryResult.rowCount := Some 1;
         ExecuteQueryResult.estimatedCost := Some "0.025";
         ExecuteQueryResult.actualCost := Some "0.020";
         ExecuteQueryResult.executionTime := Some 100;
         ExecuteQueryResult.txHash := Some "0xtx456";
         ExecuteQueryResult.error := None |}
  /\ length (gatewayCalls (traceOf
        (run (mockWorld createMockWallet)
             (executeQuery (selectParams "SELECT COUNT(*) FROM orders") testService)
             (paidScript 300 (okResponse (Some testData)))))) = 2%nat.
Proof. split; vm_compute; reflexivity. Qed.

(** "should reject non-SELECT queries". *)
Example non_select_sample :
  resultOf (run (mockWorld createMockWallet)
                (executeQuery (selectParams "DELETE FROM users") testService) [])
  = Resolved (failure "Only SELECT queries are allowed").
Proof. reflexivity. Qed.

(** Every error is returned as a result: [executeQuery] never throws. *)
Lemma executeQuery_never_throws :
  forall (W : World) (w : world W) (params : ExecuteQueryParams.t)
         (self : SerenService.t),
    exists r, resultOf (run W (executeQuery params self) w) = Resolved r.
Proof.
  intros W w params self. all_runs.
  unfold executeQuery. explore.
  all: eexists; reflexivity.
Qed.

(* ===================================================================== *)
(** ** Input validation of executeQuery *)
(* ===================================================================== *)






(* ===================================================================== *)
(** ** The two-phase exchange *)
(* ===================================================================== *)

(** C5: when the initial answer is payment-required with an empty list
    of accepted methods, [executeQuery] returns the error result
    "No payment method available"; no domain or message is built, the
    signer is never invoked, and no second request is sent. *)
Theorem empty_accepts_no_signature :
  forall (W : World) (w : world W) (params : ExecuteQueryParams.t)
         (self : SerenService.t) request payload response accepted rest,
    gatewayCalls (traceOf (run W (executeQuery params self) w))
      = (request, payload, Resolved response) :: rest ->
    GatewayResponse.status response = 402 ->
    GatewayResponse.paymentRequired response = Some accepted ->
    PaymentRequirementsResponse.accepts accepted = [] ->
    resultOf (run W (executeQuery params self) w)
      = Resolved (failure "No payment method available")
    /\ rest = []
    /\ signCalls (traceOf (run W (executeQuery params self) w)) = []
    /\ messageRequests (traceOf (run W (executeQuery params self) w)) = []
    /\ domainRequests (traceOf (run W (executeQuery params self) w)) = [].
Proof.
  intros W w params self. all_runs.
  unfold executeQuery. explore.
  all: intros request payload response accepted rest Hcalls Hstatus Hreq Hacc.
  all: try discriminate Hcalls.
  all: injection Hcalls as <- <- <- <-.
  all: try (rewrite Hstatus in *; discriminate).
  all: try congruence.
  all: repeat split.
Qed.

Lemma empty_accepts_no_signature_witness :
  resultOf (run (mockWorld createMockWallet)
                (executeQuery (selectParams "SELECT 1") testService)
                [Resolved (paymentRequiredResponse [])])
    = Resolved (failure "No payment method available")
  /\ @nil (QueryRequest.t * option PaymentPayload.t * Outcome GatewayResponse.t) = []
  /\ signCalls (traceOf (run (mockWorld createMockWallet)
                (executeQuery (selectParams "SELECT 1") testService)
                [Resolved (paymentRequiredResponse [])])) = []
  /\ messageRequests (traceOf (run (mockWorld createMockWallet)
                (executeQuery (selectParams "SELECT 1") testService)
                [Resolved (paymentRequiredResponse [])])) = []
  /\ domainRequests (traceOf (run (mockWorld createMockWallet)
                (executeQuery (selectParams "SELECT 1") testService)
                [Resolved (paymentRequiredResponse [])])) = [].
Proof.
  eapply (empty_accepts_no_signature (mockWorld createMockWallet)
            [Resolved (paymentRequiredResponse [])]
            (selectParams "SELECT 1") testService).
  - vm_compute. reflexivity.
  - reflexivity.
  - reflexivity.
  - reflexivity.
Defined.

(** C7: when the signer rejects with [UserRejectedError], [executeQuery]
    returns the error result "User rejected the payment request", and
    the only request the gateway received is the initial one, without
    payment: no retry is made. *)
Theorem user_rejection_stops_the_flow :
  forall (W : World) (w : world W) (params : ExecuteQueryParams.t)
         (self : SerenService.t) domain message reason,
    In (domain, message, Rejected (UserRejectedError reason))
       (signCalls (traceOf (run W (executeQuery params self) w))) ->
    resultOf (run W (executeQuery params self) w)
      = Resolved (failure "User rejected the payment request")
    /\ exists agentWallet response,
         gatewayCalls (traceOf (run W (executeQuery params self) w))
         = [(queryRequest params agentWallet, None, Resolved response)].
Proof.
  intros W w params self. all_runs.
  unfold executeQuery. explore.
  all: intros dom msg reason Hin; simpl in Hin.
  all: repeat match goal with
              | H : _ \/ _ |- _ => destruct H as [H | H]
              | H : False |- _ => destruct H
              end.
  all: try discriminate.
  all: injection Hin as _ _ ->.
  all: split; [reflexivity | eauto].
Qed.

Lemma user_rejection_stops_the_flow_witness :
  resultOf (run (mockWorld rejectingWallet)
                (executeQuery (selectParams "SELECT 1") testService)
                (paidScript 300 (okResponse (Some testData))))
    = Resolved (failure "User rejected the payment request")
  /\ exists agentWallet response,
       gatewayCalls (traceOf (run (mockWorld rejectingWallet)
                (executeQuery (selectParams "SELECT 1") testService)
                (paidScript 300 (okResponse (Some testData)))))
       = [(queryRequest (selectParams "SELECT 1") agentWallet, None,
           Resolved response)].
Proof.
  eapply (user_rejection_stops_the_flow (mockWorld rejectingWallet)
            (paidScript 300 (okResponse (Some testData)))
            (selectParams "SELECT 1") testService).
  vm_compute. left. reflexivity.
Defined.

(** C9, as stated, fails: an initial answer with status 200 and no body
    is not payment-required, yet the result is an error. *)
Lemma unpaid_answer_without_body_is_an_error :
  GatewayResponse.status (okResponse None) <> 402
  /\ resultOf (run (mockWorld createMockWallet)
                   (executeQuery (selectParams "SELECT 1") testService)
                   [Resolved (okResponse None)])
     = Resolved (failure "Unexpected response from gateway")
  /\ ExecuteQueryResult.success (failure "Unexpected response from gateway")
     = false.
Proof.
  split; [discriminate |].
  split; [vm_compute; reflexivity | reflexivity].
Qed.

(** C9, amended: when the initial answer is not payment-required (its
    status is not 402, or it carries no payment requirements) and has a
    body, [executeQuery] returns a success result with the rows, row
    count, costs and execution time of that body; without a body it
    returns the error result "Unexpected response from gateway".  In
    both cases nothing is signed and no second request is sent. *)
Theorem unpaid_answer_is_final :
  forall (W : World) (w : world W) (params : ExecuteQueryParams.t)
         (self : SerenService.t) request payload response rest,
    gatewayCalls (traceOf (run W (executeQuery params self) w))
      = (request, payload, Resolved response) :: rest ->
    GatewayResponse.status response <> 402
    \/ GatewayResponse.paymentRequired response = None ->
    rest = []
    /\ signCalls (traceOf (run W (executeQuery params self) w)) = []
    /\ resultOf (run W (executeQuery params self) w)
       = Resolved
           match GatewayResponse.data response with
           | Some data =>
               {| ExecuteQueryResult.success := true;
                  ExecuteQueryResult.rows := Some (QueryResult.rows data);
                  ExecuteQueryResult.rowCount := Some (QueryResult.rowCount data);
                  ExecuteQueryResult.estimatedCost :=
                    Some (QueryResult.estimatedCost data);
                  ExecuteQueryResult.actualCost :=
                    Some (QueryResult.actualCost data);
                  ExecuteQueryResult.executionTime :=
                    Some (QueryResult.executionTime data);
                  ExecuteQueryResult.txHash := None;
                  ExecuteQueryResult.error := None |}
           | None => failure "Unexpected response from gateway"
           end.
Proof.
  intros W w params self. all_runs.
  unfold executeQuery. explore.
  all: intros request payload response rest Hcalls Hfinal.
  all: try discriminate Hcalls.
  all: injection Hcalls as <- <- <- <-.
  all: try (destruct Hfinal as [Hfinal | Hfinal];
            [apply Z.eqb_neq in Hfinal | ]; congruence).
  all: repeat split.
  all: match goal with
       | H : GatewayResponse.data _ = _ |- _ => rewrite H; reflexivity
       end.
Qed.

Lemma unpaid_answer_is_final_witness :
  @nil (QueryRequest.t * option PaymentPayload.t * Outcome GatewayResponse.t) = []
  /\ signCalls (traceOf (run (mockWorld createMockWallet)
                   (executeQuery (selectParams "SELECT 1") testService)
                   [Resolved (okResponse (Some testData))])) = []
  /\ resultOf (run (mockWorld createMockWallet)
                   (executeQuery (selectParams "SELECT 1") testService)
                   [Resolved (okResponse (Some testData))])
     = Resolved
         {| ExecuteQueryResult.success := true;
            ExecuteQueryResult.rows := Some ["{count: 42}"];
            ExecuteQueryResult.rowCount := Some 1;
            ExecuteQueryResult.estimatedCost := Some "0.025";
            ExecuteQueryResult.actualCost := Some "0.020";
            ExecuteQueryResult.executionTime := Some 100;
            ExecuteQueryResult.txHash := None;
            ExecuteQueryResult.error := None |}.
Proof.
  apply (unpaid_answer_is_final (mockWorld createMockWallet)
           [Resolved (okResponse (Some testData))]
           (selectParams "SELECT 1") testService
           (queryRequest (selectParams "SELECT 1")
                         "0x1234567890123456789012345678901234567890")
           None (okResponse (Some testData)) []).
  - vm_compute. reflexivity.
  - left. discriminate.
Defined.

(** C2, as stated, fails: the status of the retry's answer is never
    inspected.  A payment-required answer with a body yields a success
    result; one without a body yields the same error result as a
    status-200 answer without a body, "No data returned from gateway",
    which carries no payment-rejected classification. *)
Lemma second_payment_required_is_not_classified :
  GatewayResponse.status paymentRequiredWithBody = 402
  /\ GatewayResponse.paymentRequired paymentRequiredWithBody <> None
  /\ (exists r,
        resultOf (run (mockWorld createMockWallet)
                      (executeQuery (selectParams "SELECT 1") testService)
                      (paidScript 300 paymentRequiredWithBody)) = Resolved r
        /\ ExecuteQueryResult.success r = true)
  /\ resultOf (run (mockWorld createMockWallet)
                   (executeQuery (selectParams "SELECT 1") testService)
                   (paidScript 300 (paymentRequiredResponse [testRequirement 300])))
     = Resolved (failure "No data returned from gateway")
  /\ resultOf (run (mockWorld createMockWallet)
                   (executeQuery (selectParams "SELECT 1") testService)
                   (paidScript 300 (okResponse None)))
     = Resolved (failure "No data returned from gateway").
Proof.
  split; [reflexivity |]. split; [discriminate |].
  split; [| split; vm_compute; reflexivity].
  eexists. split; vm_compute; reflexivity.
Qed.

(** C2, amended: in every execution the gateway is called at most
    twice: not at all, or once without payment, or once without payment
    and then once more with the identical request and a payment payload
    attached.  The status of the retry's answer is not inspected: when
    that answer carries no body (as a bare payment-required answer
    does), the result is the error "No data returned from gateway"; no
    further request is issued. *)
Theorem at_most_one_authorized_retry :
  forall (W : World) (w : world W) (params : ExecuteQueryParams.t)
         (self : SerenService.t),
    (gatewayCalls (traceOf (run W (executeQuery params self) w)) = []
     \/ (exists agentWallet answer,
           gatewayCalls (traceOf (run W (executeQuery params self) w))
           = [(queryRequest params agentWallet, None, answer)])
     \/ (exists agentWallet initial paymentPayload answer,
           gatewayCalls (traceOf (run W (executeQuery params self) w))
           = [(queryRequest params agentWallet, None, Resolved initial);
              (queryRequest params agentWallet, Some paymentPayload, answer)]))
    /\ (forall request paymentPayload response,
          In (request, Some paymentPayload, Resolved response)
             (gatewayCalls (traceOf (run W (executeQuery params self) w))) ->
          GatewayResponse.data response = None ->
          resultOf (run W (executeQuery params self) w)
          = Resolved (failure "No data returned from gateway")).
Proof.
  intros W w params self. all_runs.
  unfold executeQuery. explore.
  all: split;
    [ first [ left; reflexivity
            | right; left; eexists _, _; reflexivity
            | right; right; eexists _, _, _, _; reflexivity ]
    | intros request paymentPayload response Hin Hdata; simpl in Hin ].
  all: repeat match goal with
              | H : _ \/ _ |- _ => destruct H as [H | H]
              | H : False |- _ => destruct H
              end.
  all: try discriminate.
  all: injection Hin as _ _ ->.
  all: try reflexivity.
  all: congruence.
Qed.

Lemma at_most_one_authorized_retry_witness :
  resultOf (run (mockWorld createMockWallet)
                (executeQuery (selectParams "SELECT 1") testService)
                (paidScript 300 (paymentRequiredResponse [testRequirement 300])))
  = Resolved (failure "No data returned from gateway").
Proof.
  destruct (at_most_one_authorized_retry (mockWorld createMockWallet)
              (paidScript 300 (paymentRequiredResponse [testRequirement 300]))
              (selectParams "SELECT 1") testService) as [_ Hretry].
  eapply Hretry.
  - vm_compute. right. left. reflexivity.
  - reflexivity.
Defined.

(* ===================================================================== *)
(** ** buildPaymentPayload *)
(* ===================================================================== *)





(** C3, as stated, fails: for a requirement with maxTimeoutSeconds = 0
    [buildPaymentPayload] does not fail.  The wallet signs once, and the
    payload returned has validBefore equal to the current time; through
    [executeQuery] that payload is sent to the gateway and the query
    succeeds. *)
Lemma non_positive_timeout_is_signed :
  PaymentRequirement.maxTimeoutSeconds (testRequirement 0) <= 0
  /\ (exists paymentPayload,
        resultOf (run (mockWorld createMockWallet)
                      (buildPaymentPayload (testRequirement 0) "0xpayer"
                         PrivateKeyWalletProvider testService) [])
        = Resolved paymentPayload
        /\ Authorization.validBefore
             (SignedAuthorization.authorization
                (PaymentPayload.payload paymentPayload))
           = Number_toString (Math_floor_div (mock_now createMockWallet) 1000))
  /\ length (signCalls (traceOf
       (run (mockWorld createMockWallet)
            (buildPaymentPayload (testRequirement 0) "0xpayer"
               PrivateKeyWalletProvider testService) []))) = 1%nat
  /\ (exists r,
        resultOf (run (mockWorld createMockWallet)
                      (executeQuery (selectParams "SELECT 1") testService)
                      (paidScript 0 (okResponse (Some testData))))
        = Resolved r
        /\ ExecuteQueryResult.success r = true).
Proof.
  split; [discriminate |].
  split; [eexists; split; vm_compute; reflexivity |].
  split; [vm_compute; reflexivity |].
  eexists; split; vm_compute; reflexivity.
Qed.

(** C3, amended: for a requirement with maxTimeoutSeconds <= 0,
    [buildPaymentPayload] makes no check of its own.  It fails only with
    a value thrown by one of the calls it makes; when none throws it
    returns a payload, after the wallet signed exactly once, whose
    validBefore is now + maxTimeoutSeconds; and every message it
    requests has validBefore = now + maxTimeoutSeconds <= now. *)
Theorem non_positive_timeout_unchecked :
  forall (W : World) (w : world W) (requirement : PaymentRequirement.t)
         (fromAddress : Address) (wallet : WalletProvider)
         (self : SerenService.t),
    PaymentRequirement.maxTimeoutSeconds requirement <= 0 ->
    (forall e,
       resultOf (run W (buildPaymentPayload requirement fromAddress wallet self) w)
       = Rejected e ->
       In e (thrown (traceOf
               (run W (buildPaymentPayload requirement fromAddress wallet self) w))))
    /\ (thrown (traceOf
          (run W (buildPaymentPayload requirement fromAddress wallet self) w)) = [] ->
        exists paymentPayload ms domain message signature,
          resultOf (run W (buildPaymentPayload requirement fromAddress wallet self) w)
          = Resolved paymentPayload
          /\ clockReads (traceOf
               (run W (buildPaymentPayload requirement fromAddress wallet self) w))
             = [ms]
          /\ signCalls (traceOf
               (run W (buildPaymentPayload requirement fromAddress wallet self) w))
             = [(domain, message, Resolved signature)]
          /\ Authorization.validBefore
               (SignedAuthorization.authorization
                  (PaymentPayload.payload paymentPayload))
             = Number_toString
                 (Math_floor_div ms 1000
                  + PaymentRequirement.maxTimeoutSeconds requirement))
    /\ (forall ms params answer,
          In ms (clockReads (traceOf
             (run W (buildPaymentPayload requirement fromAddress wallet self) w))) ->
          In (params, answer)
             (messageRequests (traceOf
                (run W (buildPaymentPayload requirement fromAddress wallet self) w))) ->
          AuthorizationParams.validBefore params
          = Math_floor_div ms 1000 + PaymentRequirement.maxTimeoutSeconds requirement
          /\ AuthorizationParams.validBefore params <= Math_floor_div ms 1000).
Proof.
  intros W w requirement fromAddress wallet self Hnonpos.
  all_runs. unfold buildPaymentPayload. explore.
  all: split; [intros err Herr | split; [intros Hthrown | intros ms params answer Hclock Hmsg]].
  all: try discriminate.
  all: try (injection Herr as <-; simpl; auto; fail).
  all: try (eexists _, _, _, _, _; repeat split; fail).
  all: simpl in Hclock, Hmsg.
  all: repeat match goal with
              | H : _ \/ _ |- _ => destruct H as [H | H]
              | H : False |- _ => destruct H
              end.
  all: subst ms; injection Hmsg as <- <-; cbn; split; [reflexivity | lia].
Qed.

Lemma non_positive_timeout_unchecked_witness :
  PaymentRequirement.maxTimeoutSeconds (testRequirement (-30)) <= 0
  /\ exists paymentPayload,
       resultOf (run (mockWorld createMockWallet)
                     (buildPaymentPayload (testRequirement (-30)) "0xpayer"
                        PrivateKeyWalletProvider testService) [])
       = Resolved paymentPayload
       /\ Authorization.validBefore
            (SignedAuthorization.authorization
               (PaymentPayload.payload paymentPayload))
          = "1699999970".
Proof.
  split; [discriminate |].
  destruct (non_positive_timeout_unchecked (mockWorld createMockWallet) []
              (testRequirement (-30)) "0xpayer" PrivateKeyWalletProvider testService)
    as (_ & Hbuilt & _).
  - discriminate.
  - destruct Hbuilt as (paymentPayload & ms & domain & message & signature
                        & Hres & Hclock & _ & Hbefore).
    + vm_compute. reflexivity.
    + exists paymentPayload. split; [exact Hres |].
      rewrite Hbefore. injection Hclock as <-. vm_compute. reflexivity.
Defined.

(** C4, as stated, fails: a caller whose default chain is 1 has no way
    to supply it.  For a requirement without [extra], whatever the
    private key, the gateway URL and the payer address, the domain is
    requested with chain id 8453. *)
Lemma chain_id_default_is_fixed :
  ~ chainIdFallsBackTo 1
  /\ map (fun r => DomainParams.chainId (fst r))
       (domainRequests (traceOf
          (run (mockWorld createMockWallet)
               (buildPaymentPayload (testRequirement 300) "0xpayer"
                  PrivateKeyWalletProvider
                  (constructor "0xkey" "https://gateway")) []))) = [8453]
  /\ map (fun r => DomainParams.chainId (fst r))
       (domainRequests (traceOf
          (run (mockWorld createMockWallet)
               (buildPaymentPayload (testRequirement 300) "0xother"
                  PrivateKeyWalletProvider
                  (constructor "0xotherkey" "https://gateway.on.chain.1")) [])))
     = [8453].
Proof.
  split; [| split; vm_compute; reflexivity].
  intros Hclaim.
  specialize (Hclaim (mockWorld createMockWallet) [] (testRequirement 300)
                     "0xpayer" PrivateKeyWalletProvider testService
                     {| DomainParams.chainId := 8453;
                        DomainParams.verifyingContract := "0xusdc";
                        DomainParams.name := None;
                        DomainParams.version := None |}
                     (Resolved {| Domain.name := None;
                                  Domain.version := None;
                                  Domain.chainId := 8453;
                                  Domain.verifyingContract := "0xusdc" |})
                     eq_refl).
  simpl in Hclaim. discriminate Hclaim.
  vm_compute. left. reflexivity.
Qed.

(** C4, amended: [buildPaymentPayload] first requests one domain.  Each
    of its parameters is the field of [requirement.extra.eip712] when
    that field is present; otherwise the verifying contract is
    [requirement.asset], the chain id is the constant 8453, and name and
    version are left undefined.  The domain and message handed to the
    signer are those of the typed data built from that domain. *)
Theorem domain_parameters :
  forall (W : World) (w : world W) (requirement : PaymentRequirement.t)
         (fromAddress : Address) (wallet : WalletProvider)
         (self : SerenService.t),
    exists params answer,
      domainRequests (traceOf
        (run W (buildPaymentPayload requirement fromAddress wallet self) w))
      = [(params, answer)]
      /\ (forall ex config,
            PaymentRequirement.extra requirement = Some ex ->
            Extra.eip712 ex = Some config ->
            DomainParams.chainId params
            = match Eip712Config.chainId config with
              | Some chainId => chainId
              | None => 8453
              end
            /\ DomainParams.verifyingContract params
               = match Eip712Config.verifyingContract config with
                 | Some verifyingContract => verifyingContract
                 | None => PaymentRequirement.asset requirement
                 end
            /\ DomainParams.name params = Eip712Config.name config
            /\ DomainParams.version params = Eip712Config.version config)
      /\ (chain (PaymentRequirement.extra requirement) Extra.eip712 = None ->
          DomainParams.chainId params = 8453
          /\ DomainParams.verifyingContract params
             = PaymentRequirement.asset requirement
          /\ DomainParams.name params = None
          /\ DomainParams.version params = None)
      /\ (forall signedDomain signedMessage result,
            In (signedDomain, signedMessage, result)
               (signCalls (traceOf
                  (run W (buildPaymentPayload requirement fromAddress wallet self) w))) ->
            exists domain message typedData,
              answer = Resolved domain
              /\ In (domain, message, Resolved typedData)
                    (typedDataRequests (traceOf
                       (run W (buildPaymentPayload requirement fromAddress wallet self) w)))
              /\ signedDomain = TypedData.domain typedData
              /\ signedMessage = TypedData.message typedData).
Proof.
  intros W w requirement fromAddress wallet self.
  all_runs. unfold buildPaymentPayload. explore.
  all: eexists _, _; split; [reflexivity |].
  all: split; [intros ex config Hex Hcfg; rewrite Hex; cbn; rewrite Hcfg; cbn;
               repeat split; destruct config as [[c|] [v|] n v']; reflexivity |].
  all: split; [intros Hnone; rewrite Hnone; cbn; repeat split |].
  all: intros signedDomain signedMessage result Hin; simpl in Hin.
  all: repeat match goal with
              | H : _ \/ _ |- _ => destruct H as [H | H]
              | H : False |- _ => destruct H
              end.
  all: injection Hin as <- <- <-.
  all: eexists _, _, _; repeat split; simpl; auto.
Qed.

Lemma domain_parameters_witness :
  exists params answer,
    domainRequests (traceOf
      (run (mockWorld createMockWallet)
           (buildPaymentPayload requirementWithDomain "0xpayer"
              PrivateKeyWalletProvider testService) []))
    = [(params, answer)]
    /\ DomainParams.chainId params = 84532
    /\ DomainParams.verifyingContract params = "0xcontract".
Proof.
  destruct (domain_parameters (mockWorld createMockWallet) []
              requirementWithDomain "0xpayer" PrivateKeyWalletProvider testService)
    as (params & answer & Hrequest & Hextra & _).
  exists params, answer. split; [exact Hrequest |].
  destruct (Hextra _ _ eq_refl eq_refl) as (Hchain & Hcontract & _).
  split; [exact Hchain | exact Hcontract].
Defined.

(* ===================================================================== *)
(** ** executeQuery: errors, wallet handling, transaction hash *)
(* ===================================================================== *)

Ltac split_cases :=
  repeat match goal with
         | H : _ \/ _ |- _ => destruct H as [H | H]
         | H : False |- _ => destruct H
         | H : _ /\ _ |- _ => destruct H
         end.

(** In every run of [executeQuery] at most one call throws, it is the
    last call made, and the value thrown decides the result: the fixed
    text for a user rejection, the message of any other error, and
    "Unknown error occurred" for a value that is not an error. *)
Theorem thrown_error_is_surfaced :
  forall (W : World) (w : world W) (params : ExecuteQueryParams.t)
         (self : SerenService.t),
    thrown (traceOf (run W (executeQuery params self) w)) = []
    \/ exists e last,
         thrown (traceOf (run W (executeQuery params self) w)) = [e]
         /\ lastOf (traceOf (run W (executeQuery params self) w)) = Some last
         /\ thrownBy last = Some e
         /\ resultOf (run W (executeQuery params self) w)
            = Resolved
                (failure match e with
                         | UserRejectedError _ => "User rejected the payment request"
                         | Error message => message
                         | NotAnError => "Unknown error occurred"
                         end).
Proof.
  intros W w params self. all_runs.
  unfold executeQuery. explore.
  all: first [ left; reflexivity
             | right; eexists _, _; repeat split;
               match goal with e : Thrown |- _ => destruct e; reflexivity end ].
Qed.

(** A result of [executeQuery] is either a success, without error text,
    whose rows, row count, costs and execution time are those of the
    body of the last answer of the gateway, or a failure with an error
    text and no rows, counts, costs or transaction hash. *)
Theorem result_shape :
  forall (W : World) (w : world W) (params : ExecuteQueryParams.t)
         (self : SerenService.t) r,
    resultOf (run W (executeQuery params self) w) = Resolved r ->
    (ExecuteQueryResult.success r = true
     /\ ExecuteQueryResult.error r = None
     /\ exists earlier request payload response data,
          gatewayCalls (traceOf (run W (executeQuery params self) w))
          = (earlier ++ [(request, payload, Resolved response)])%list
          /\ GatewayResponse.data response = Some data
          /\ ExecuteQueryResult.rows r = Some (QueryResult.rows data)
          /\ ExecuteQueryResult.rowCount r = Some (QueryResult.rowCount data)
          /\ ExecuteQueryResult.estimatedCost r
             = Some (QueryResult.estimatedCost data)
          /\ ExecuteQueryResult.actualCost r = Some (QueryResult.actualCost data)
          /\ ExecuteQueryResult.executionTime r
             = Some (QueryResult.executionTime data))
    \/ exists msg, r = failure msg.
Proof.
  intros W w params self r. all_runs.
  unfold executeQuery. explore.
  all: intros Hr; injection Hr as <-.
  all: first [ right; eexists; reflexivity
             | left; split; [reflexivity |]; split; [reflexivity |];
               first [ exists []; eexists _, _, _, _; split; [reflexivity |]
                     | eexists [_], _, _, _, _; split; [reflexivity |] ];
               repeat split; assumption ].
Qed.

Lemma result_shape_witness :
  exists r,
    resultOf (run (mockWorld createMockWallet)
                  (executeQuery (selectParams "SELECT 1") testService)
                  (paidScript 300 (okResponse (Some testData)))) = Resolved r
    /\ ExecuteQueryResult.rows r = Some (QueryResult.rows testData).
Proof.
  eexists. split; [vm_compute; reflexivity |].
  destruct (result_shape (mockWorld createMockWallet)
              (paidScript 300 (okResponse (Some testData)))
              (selectParams "SELECT 1") testService _ eq_refl)
    as [(Hsuccess & _) | (msg & Hmsg)].
  - reflexivity.
  - discriminate Hmsg.
Defined.

(** The wallet is asked to [connect()] only after it reported that it is
    not connected, and it is asked for its address only once it reported
    connected or [connect()] resolved. *)
Theorem wallet_connected_before_use :
  forall (W : World) (w : world W) (params : ExecuteQueryParams.t)
         (self : SerenService.t),
    (forall r,
       In (None, r) (connectCalls (traceOf (run W (executeQuery params self) w))) ->
       isConnectedCalls (traceOf (run W (executeQuery params self) w))
       = [Resolved false])
    /\ (getAddressCalls (traceOf (run W (executeQuery params self) w)) <> [] ->
        isConnectedCalls (traceOf (run W (executeQuery params self) w))
        = [Resolved true]
        \/ (isConnectedCalls (traceOf (run W (executeQuery params self) w))
            = [Resolved false]
            /\ In (None, Resolved tt)
                  (connectCalls (traceOf (run W (executeQuery params self) w))))).
Proof.
  intros W w params self. all_runs.
  unfold executeQuery. explore.
  all: split; [intros r Hin; simpl in Hin; split_cases; try discriminate
              | intros Haddr; try (exfalso; apply Haddr; reflexivity) ].
  all: repeat match goal with
              | H : negb ?b = _ |- _ => destruct b; try discriminate H; clear H
              | u : unit |- _ => destruct u
              end.
  all: first [ reflexivity
             | left; reflexivity
             | right; split; [reflexivity | simpl; auto] ].
Qed.

Lemma wallet_connected_before_use_witness :
  isConnectedCalls
    (traceOf (run (mockWorld disconnectedWallet)
                  (executeQuery (selectParams "SELECT 1") testService)
                  (paidScript 300 (okResponse (Some testData)))))
  = [Resolved false].
Proof.
  destruct (wallet_connected_before_use (mockWorld disconnectedWallet)
              (paidScript 300 (okResponse (Some testData)))
              (selectParams "SELECT 1") testService) as [Hconnect _].
  apply (Hconnect (Resolved tt)).
  vm_compute. right. left. reflexivity.
Defined.

(** [executeQuery] never changes the private key or the gateway URL of
    the instance.  With a cached wallet provider it leaves the instance
    as it is and never connects with the key.  Without one, unless
    validation fails, its first wallet call connects a new provider with
    the private key of the instance, this is the only connect with a
    key, and the provider is cached exactly when that call resolved. *)
Theorem wallet_provider_is_cached :
  forall (W : World) (w : world W) (params : ExecuteQueryParams.t)
         (self : SerenService.t),
    SerenService.privateKey (instanceOf (run W (executeQuery params self) w))
    = SerenService.privateKey self
    /\ SerenService.gatewayUrl (instanceOf (run W (executeQuery params self) w))
       = SerenService.gatewayUrl self
    /\ match SerenService.walletProvider self with
       | Some _ =>
           instanceOf (run W (executeQuery params self) w) = self
           /\ forall key r,
                ~ In (Some key, r)
                     (connectCalls (traceOf (run W (executeQuery params self) w)))
       | None =>
           (traceOf (run W (executeQuery params self) w) = []
            /\ instanceOf (run W (executeQuery params self) w) = self)
           \/ exists answer rest,
                connectCalls (traceOf (run W (executeQuery params self) w))
                = (Some (SerenService.privateKey self), answer) :: rest
                /\ (forall key r, ~ In (Some key, r) rest)
                /\ SerenService.walletProvider
                     (instanceOf (run W (executeQuery params self) w))
                   = match answer with
                     | Resolved _ => Some PrivateKeyWalletProvider
                     | Rejected _ => None
                     end
       end.
Proof.
  intros W w params self. all_runs.
  unfold executeQuery. explore.
  all: split; [reflexivity | split; [reflexivity |]].
  all: match goal with
       | H : SerenService.walletProvider _ = _ |- _ => try rewrite H
       | _ => destruct (SerenService.walletProvider self) eqn:?
       end.
  all: try (split; [reflexivity | intros key r Hin; simpl in Hin; split_cases;
                                  discriminate]).
  all: try (left; split; reflexivity).
  all: right; eexists _, _; split; [reflexivity |].
  all: split; [intros key r Hin; simpl in Hin; split_cases; discriminate |].
  all: try reflexivity.
  all: destruct self as [p k u]; cbn in *; congruence.
Qed.

Lemma cached_provider_never_reconnects :
  forall (W : World) (w : world W) (params : ExecuteQueryParams.t)
         (self : SerenService.t) key r,
    SerenService.walletProvider self <> None ->
    ~ In (Some key, r) (connectCalls (traceOf (run W (executeQuery params self) w))).
Proof.
  intros W w params self key r. all_runs.
  unfold executeQuery. explore.
  all: intros Hcached Hin; simpl in Hin; split_cases; try discriminate.
  all: congruence.
Qed.

Lemma connected_provider_is_kept :
  forall (W : World) (w : world W) (params : ExecuteQueryParams.t)
         (self : SerenService.t) key,
    In (Some key, Resolved tt)
       (connectCalls (traceOf (run W (executeQuery params self) w))) ->
    SerenService.walletProvider (instanceOf (run W (executeQuery params self) w))
    <> None.
Proof.
  intros W w params self key. all_runs.
  unfold executeQuery. explore.
  all: intros Hin; simpl in Hin; split_cases; try discriminate.
Qed.

(** Two requests served one after the other by the same instance: once
    the first has connected a provider with the key, the second never
    connects with the key again. *)
Theorem provider_connects_once_across_calls :
  forall (W : World) (w : world W) (first second : ExecuteQueryParams.t)
         (self : SerenService.t) key key' r,
    In (Some key, Resolved tt)
       (connectCalls (traceOf (run W (executeQuery first self) w))) ->
    ~ In (Some key', r)
         (connectCalls
            (traceOf
               (run W
                    (executeQuery second
                       (instanceOf (run W (executeQuery first self) w)))
                    (snd (run W (executeQuery first self) w))))).
Proof.
  intros W w first second self key key' r Hfirst.
  apply cached_provider_never_reconnects.
  exact (connected_provider_is_kept W w first self key Hfirst).
Qed.

Lemma provider_connects_once_across_calls_witness :
  ~ In (Some "0xkey", Resolved tt)
       (connectCalls
          (traceOf
             (run (mockWorld createMockWallet)
                  (executeQuery (selectParams "SELECT 2")
                     (instanceOf
                        (run (mockWorld createMockWallet)
                             (executeQuery (selectParams "SELECT 1") testService)
                             (paidScript 300 (okResponse (Some testData))))))
                  (snd (run (mockWorld createMockWallet)
                            (executeQuery (selectParams "SELECT 1") testService)
                            (paidScript 300 (okResponse (Some testData)))))))).
Proof.
  apply (provider_connects_once_across_calls (mockWorld createMockWallet)
           (paidScript 300 (okResponse (Some testData)))
           (selectParams "SELECT 1") (selectParams "SELECT 2") testService
           "0xkey" "0xkey" (Resolved tt)).
  vm_compute. left. reflexivity.
Defined.

(** The transaction hash of a paid result.  When the body of the paid
    answer has a settlement record with a transaction, that transaction
    is the hash and the payment response is never decoded.  Otherwise,
    when the answer carries a non-empty payment response, it is decoded
    once: the hash is the transaction of the decoded value, and if
    decoding throws the paid query is reported as a failure.  With
    neither, the result is a success without hash. *)
Theorem transaction_hash_source :
  forall (W : World) (w : world W) (params : ExecuteQueryParams.t)
         (self : SerenService.t) request paymentPayload response data,
    In (request, Some paymentPayload, Resolved response)
       (gatewayCalls (traceOf (run W (executeQuery params self) w))) ->
    GatewayResponse.data response = Some data ->
    match QueryResult.settlement data with
    | Some (Settlement.Build_t _ (String c transaction) _) =>
        decodeCalls (traceOf (run W (executeQuery params self) w)) = []
        /\ exists r,
             resultOf (run W (executeQuery params self) w) = Resolved r
             /\ ExecuteQueryResult.success r = true
             /\ ExecuteQueryResult.txHash r = Some (String c transaction)
    | _ =>
        match GatewayResponse.paymentResponse response with
        | Some (String c encoded) =>
            exists answer,
              decodeCalls (traceOf (run W (executeQuery params self) w))
              = [(String c encoded, answer)]
              /\ match answer with
                 | Resolved decoded =>
                     exists r,
                       resultOf (run W (executeQuery params self) w) = Resolved r
                       /\ ExecuteQueryResult.success r = true
                       /\ ExecuteQueryResult.txHash r
                          = PaymentResponse.transaction decoded
                 | Rejected _ =>
                     exists r,
                       resultOf (run W (executeQuery params self) w) = Resolved r
                       /\ ExecuteQueryResult.success r = false
                 end
        | _ =>
            decodeCalls (traceOf (run W (executeQuery params self) w)) = []
            /\ exists r,
                 resultOf (run W (executeQuery params self) w) = Resolved r
                 /\ ExecuteQueryResult.success r = true
                 /\ ExecuteQueryResult.txHash r = None
        end
    end.
Proof.
  intros W w params self. all_runs.
  unfold executeQuery. explore.
  all: intros request paymentPayload response data Hin Hdata; simpl in Hin.
  all: split_cases; try discriminate.
  all: injection Hin as _ _ ->.
  all: try congruence.
  all: match goal with
       | H : GatewayResponse.data _ = Some ?d, H' : GatewayResponse.data _ = Some ?d'
         |- _ => rewrite H in H'; injection H' as <-
       end.
  all: match goal with
       | H : GatewayResponse.data ?r = Some ?d |- _ =>
           destruct (QueryResult.settlement d) as [[payer [| c tx] network] |]
             eqn:Hsettlement;
           destruct (GatewayResponse.paymentResponse r) as [[| c' encoded] |]
             eqn:Hheader
       end.
  all: cbn in *; try discriminate.
  all: repeat match goal with
              | H : Some _ = Some _ |- _ => injection H as <-
              end.
  all: unfold truthy in *; cbn in *; try congruence.
  all: try (eexists; split; [reflexivity |]).
  all: try (split; [reflexivity |]).
  all: try (eexists; repeat split; reflexivity).
Qed.

Lemma transaction_hash_source_witness :
  exists answer,
    decodeCalls (traceOf (run (mockWorld createMockWallet)
                   (executeQuery (selectParams "SELECT 1") testService)
                   (paidScript 300 headerSettledResponse)))
    = [("eyJ0eCI6MX0=", answer)]
    /\ match answer with
       | Resolved decoded =>
           exists r,
             resultOf (run (mockWorld createMockWallet)
                   (executeQuery (selectParams "SELECT 1") testService)
                   (paidScript 300 headerSettledResponse)) = Resolved r
             /\ ExecuteQueryResult.success r = true
             /\ ExecuteQueryResult.txHash r = PaymentResponse.transaction decoded
       | Rejected _ =>
           exists r,
             resultOf (run (mockWorld createMockWallet)
                   (executeQuery (selectParams "SELECT 1") testService)
                   (paidScript 300 headerSettledResponse)) = Resolved r
             /\ ExecuteQueryResult.success r = false
       end.
Proof.
  pose proof (fun request paymentPayload =>
                transaction_hash_source (mockWorld createMockWallet)
                  (paidScript 300 headerSettledResponse)
                  (selectParams "SELECT 1") testService
                  request paymentPayload headerSettledResponse unsettledData)
    as H.
  cbn [QueryResult.settlement unsettledData GatewayResponse.paymentResponse
       headerSettledResponse] in H.
  eapply H.
  - vm_compute. right. left. reflexivity.
  - reflexivity.
Defined.

(** Nothing is signed unless the initial answer was payment-required
    with at least one accepted method.  Then exactly one message is
    requested and it is built for the first accepted method: from the
    address of the wallet to that method's payTo, for that method's
    maxAmountRequired; later methods are never looked at. *)
Theorem signature_is_for_the_first_method :
  forall (W : World) (w : world W) (params : ExecuteQueryParams.t)
         (self : SerenService.t),
    signCalls (traceOf (run W (executeQuery params self) w)) <> [] ->
    exists request initial rest offered first others message built,
      gatewayCalls (traceOf (run W (executeQuery params self) w))
      = (request, None, Resolved initial) :: rest
      /\ GatewayResponse.status initial = 402
      /\ GatewayResponse.paymentRequired initial = Some offered
      /\ PaymentRequirementsResponse.accepts offered = first :: others
      /\ length (signCalls (traceOf (run W (executeQuery params self) w))) = 1%nat
      /\ messageRequests (traceOf (run W (executeQuery params self) w))
         = [(message, built)]
      /\ AuthorizationParams.from message = QueryRequest.agentWallet request
      /\ AuthorizationParams.to message = PaymentRequirement.payTo first
      /\ AuthorizationParams.value message
         = PaymentRequirement.maxAmountRequired first.
Proof.
  intros W w params self. all_runs.
  unfold executeQuery. explore.
  all: intros Hsigned; try (exfalso; apply Hsigned; reflexivity).
  all: eexists _, _, _, _, _, _, _, _.
  all: split; [reflexivity |].
  all: split; [apply Z.eqb_eq; eassumption |].
  all: split; [eassumption |].
  all: split; [eassumption |].
  all: repeat split.
Qed.

Lemma signature_is_for_the_first_method_witness :
  exists request initial rest offered first others message built,
    gatewayCalls (traceOf (run (mockWorld createMockWallet)
                    (executeQuery (selectParams "SELECT 1") testService)
                    (paidScript 300 (okResponse (Some testData)))))
    = (request, None, Resolved initial) :: rest
    /\ GatewayResponse.status initial = 402
    /\ GatewayResponse.paymentRequired initial = Some offered
    /\ PaymentRequirementsResponse.accepts offered = first :: others
    /\ length (signCalls (traceOf (run (mockWorld createMockWallet)
                    (executeQuery (selectParams "SELECT 1") testService)
                    (paidScript 300 (okResponse (Some testData)))))) = 1%nat
    /\ messageRequests (traceOf (run (mockWorld createMockWallet)
                    (executeQuery (selectParams "SELECT 1") testService)
                    (paidScript 300 (okResponse (Some testData)))))
       = [(message, built)]
    /\ AuthorizationParams.from message = QueryRequest.agentWallet request
    /\ AuthorizationParams.to message = PaymentRequirement.payTo first
    /\ AuthorizationParams.value message
       = PaymentRequirement.maxAmountRequired first.
Proof.
  apply (signature_is_for_the_first_method (mockWorld createMockWallet)
           (paidScript 300 (okResponse (Some testData)))
           (selectParams "SELECT 1") testService).
  vm_compute. discriminate.
Defined.

(** The retry carries the payload that was just built: the signature the
    wallet returned, in an authorization from the wallet's address to
    the payTo of the first accepted method, for that method's
    maxAmountRequired, under that method's scheme and network. *)
Theorem retry_carries_the_signed_payload :
  forall (W : World) (w : world W) (params : ExecuteQueryParams.t)
         (self : SerenService.t) request paymentPayload answer,
    In (request, Some paymentPayload, answer)
       (gatewayCalls (traceOf (run W (executeQuery params self) w))) ->
    exists initial offered first others domain message,
      In (request, None, Resolved initial)
         (gatewayCalls (traceOf (run W (executeQuery params self) w)))
      /\ GatewayResponse.paymentRequired initial = Some offered
      /\ PaymentRequirementsResponse.accepts offered = first :: others
      /\ signCalls (traceOf (run W (executeQuery params self) w))
         = [(domain, message,
             Resolved (SignedAuthorization.signature
                         (PaymentPayload.payload paymentPayload)))]
      /\ PaymentPayload.scheme paymentPayload = PaymentRequirement.scheme first
      /\ PaymentPayload.network paymentPayload = PaymentRequirement.network first
      /\ Authorization.from
           (SignedAuthorization.authorization (PaymentPayload.payload paymentPayload))
         = QueryRequest.agentWallet request
      /\ Authorization.to
           (SignedAuthorization.authorization (PaymentPayload.payload paymentPayload))
         = PaymentRequirement.payTo first
      /\ Authorization.value
           (SignedAuthorization.authorization (PaymentPayload.payload paymentPayload))
         = PaymentRequirement.maxAmountRequired first.
Proof.
  intros W w params self. all_runs.
  unfold executeQuery. explore.
  all: intros request paymentPayload answer Hin; simpl in Hin.
  all: split_cases; try discriminate.
  all: injection Hin as <- <- <-.
  all: eexists _, _, _, _, _, _.
  all: split; [simpl; left; reflexivity |].
  all: split; [eassumption |].
  all: split; [eassumption |].
  all: repeat split.
Qed.

Lemma retry_carries_the_signed_payload_witness :
  exists initial offered first others domain message,
    In (queryRequest (selectParams "SELECT 1")
                     "0x1234567890123456789012345678901234567890",
        None, Resolved initial)
       (gatewayCalls (traceOf (run (mockWorld createMockWallet)
                        (executeQuery (selectParams "SELECT 1") testService)
                        (paidScript 300 (okResponse (Some testData))))))
    /\ GatewayResponse.paymentRequired initial = Some offered
    /\ PaymentRequirementsResponse.accepts offered = first :: others
    /\ signCalls (traceOf (run (mockWorld createMockWallet)
                     (executeQuery (selectParams "SELECT 1") testService)
                     (paidScript 300 (okResponse (Some testData)))))
       = [(domain, message, Resolved "0xabab")].
Proof.
  pose proof (fun paymentPayload =>
                retry_carries_the_signed_payload (mockWorld createMockWallet)
                  (paidScript 300 (okResponse (Some testData)))
                  (selectParams "SELECT 1") testService
                  (queryRequest (selectParams "SELECT 1")
                                "0x1234567890123456789012345678901234567890")
                  paymentPayload (Resolved (okResponse (Some testData)))) as H.
  edestruct H as (initial & offered & first & others & domain & message
                  & Hin & Hoffered & Haccepts & Hsign & _).
  - vm_compute. right. left. reflexivity.
  - exists initial, offered, first, others, domain, message.
    repeat split; assumption.
Defined.

(* ===================================================================== *)
(** ** POST /api/execute-sql *)
(* ===================================================================== *)

Lemma run_andThen {A B : Type} (W : World) (t : Task A) (f : A -> Task B) :
  forall w : world W,
    run W (andThen t f) w
    = let '(a, tr, w1) := run W t w in
      let '(b, tr', w2) := run W (f a) w1 in
      (b, (tr ++ tr')%list, w2).
Proof.
  induction t as [a | X c k IH]; intros w; simpl.
  - destruct (run W (f a) w) as [[b tr'] w2]. reflexivity.
  - destruct (respond W X c w) as [x w1].
    rewrite IH.
    destruct (run W (k x) w1) as [[a tr] w2].
    destruct (run W (f a) w2) as [[b tr'] w3]. reflexivity.
Qed.

Lemma safeParse_accepts (body : RequestBody) (params : ExecuteQueryParams.t) :
  executeSqlSchema_safeParse body = inl params <->
  body = Object (Text (ExecuteQueryParams.sql params))
                (Text (ExecuteQueryParams.providerId params))
  /\ falsy (ExecuteQueryParams.sql params) = false
  /\ falsy (ExecuteQueryParams.providerId params) = false.
Proof.
  split.
  - destruct body as [| [| s |] [| p |]]; simpl; try discriminate.
    all: try (destruct (falsy s) eqn:Hs); try (destruct (falsy p) eqn:Hp).
    all: simpl; try discriminate.
    intros H; injection H as <-. simpl. auto.
  - intros (-> & Hs & Hp). simpl. rewrite Hs, Hp. destruct params; reflexivity.
Qed.

(** A request body is accepted only when it is an object whose [sql] and
    [providerId] are non-empty strings.  Any other body is answered with
    status 400 and "Invalid request body", with the issues found, before
    any call is made: the service instance is neither used nor changed. *)
Theorem malformed_body_is_a_400 :
  forall (W : World) (w : world W) (body : RequestBody) (self : SerenService.t),
    (forall s p, body = Object (Text s) (Text p) ->
                 falsy s = true \/ falsy p = true) ->
    traceOf (run W (post_execute_sql body self) w) = []
    /\ instanceOf (run W (post_execute_sql body self) w) = self
    /\ exists issues,
         issues <> []
         /\ resultOf (run W (post_execute_sql body self) w)
            = Resolved (respond_json 400 (failure "Invalid request body")
                                     (Some issues)).
Proof.
  intros W w body self Hbad.
  unfold post_execute_sql.
  destruct (executeSqlSchema_safeParse body) as [params | issues] eqn:Hparse.
  - apply safeParse_accepts in Hparse. destruct Hparse as (Hbody & Hs & Hp).
    destruct (Hbad _ _ Hbody); congruence.
  - cbn. repeat split. exists issues. split; [| reflexivity].
    destruct body as [| [| s |] [| p |]]; simpl in Hparse;
      repeat match type of Hparse with
             | context [falsy ?x] => destruct (falsy x)
             end;
      simpl in Hparse; try discriminate Hparse;
      injection Hparse as <-; discriminate.
Qed.

Lemma malformed_body_is_a_400_witness :
  traceOf (run (mockWorld createMockWallet)
               (post_execute_sql (Object (Text "SELECT 1") Absent) testService)
               (paidScript 300 (okResponse (Some testData)))) = []
  /\ instanceOf (run (mockWorld createMockWallet)
               (post_execute_sql (Object (Text "SELECT 1") Absent) testService)
               (paidScript 300 (okResponse (Some testData)))) = testService
  /\ exists issues,
       issues <> []
       /\ resultOf (run (mockWorld createMockWallet)
               (post_execute_sql (Object (Text "SELECT 1") Absent) testService)
               (paidScript 300 (okResponse (Some testData))))
          = Resolved (respond_json 400 (failure "Invalid request body")
                                   (Some issues)).
Proof.
  apply (malformed_body_is_a_400 (mockWorld createMockWallet)).
  intros s p Hbody. discriminate Hbody.
Defined.

(** For an accepted body the handler makes exactly the calls of
    [executeQuery] on the same statement and provider id, leaves the
    instance as [executeQuery] leaves it, and writes nothing to the
    console: its catch clause is never entered.  A success is answered
    with status 200 and the fields of the result; a failure with status
    500 and the error text of the result, or "Query execution failed"
    when that text is empty. *)
Theorem handler_passes_the_result_through :
  forall (W : World) (w : world W) (sql providerId : string)
         (self : SerenService.t),
    falsy sql = false ->
    falsy providerId = false ->
    let params := {| ExecuteQueryParams.sql := sql;
                     ExecuteQueryParams.providerId := providerId |} in
    traceOf (run W (post_execute_sql (Object (Text sql) (Text providerId)) self) w)
    = traceOf (run W (executeQuery params self) w)
    /\ instanceOf
         (run W (post_execute_sql (Object (Text sql) (Text providerId)) self) w)
       = instanceOf (run W (executeQuery params self) w)
    /\ exists r,
         resultOf (run W (executeQuery params self) w) = Resolved r
         /\ resultOf
              (run W (post_execute_sql (Object (Text sql) (Text providerId)) self) w)
            = Resolved
                (if ExecuteQueryResult.success r then
                   respond_json 200
                     {| ExecuteQueryResult.success := true;
                        ExecuteQueryResult.rows := ExecuteQueryResult.rows r;
                        ExecuteQueryResult.rowCount := ExecuteQueryResult.rowCount r;
                        ExecuteQueryResult.estimatedCost :=
                          ExecuteQueryResult.estimatedCost r;
                        ExecuteQueryResult.actualCost :=
                          ExecuteQueryResult.actualCost r;
                        ExecuteQueryResult.executionTime :=
                          ExecuteQueryResult.executionTime r;
                        ExecuteQueryResult.txHash := ExecuteQueryResult.txHash r;
                        ExecuteQueryResult.error := None |}
                     None
                 else
                   respond_json 500
                     (failure (orElse (ExecuteQueryResult.error r)
                                      "Query execution failed"))
                     None).
Proof.
  intros W w sql providerId self Hsql Hid params. subst params.
  unfold post_execute_sql, executeSqlSchema_safeParse, string_min_1.
  rewrite Hsql, Hid.
  unfold try_catch. cbn [bind Monad_Method ExecuteQueryParams.sql
                         ExecuteQueryParams.providerId].
  rewrite !run_andThen.
  destruct (executeQuery_never_throws W w
              {| ExecuteQueryParams.sql := sql;
                 ExecuteQueryParams.providerId := providerId |} self) as [r Hr].
  unfold resultOf, instanceOf, traceOf in *.
  destruct (run W (executeQuery _ self) w) as [[[o self'] tr] w1].
  simpl in Hr. subst o. cbn.
  destruct (ExecuteQueryResult.success r) eqn:Hsuccess; cbn;
    rewrite !app_nil_r; repeat split; exists r;
    (split; [reflexivity | rewrite Hsuccess; reflexivity]).
Qed.

Lemma handler_passes_the_result_through_witness :
  exists r,
    resultOf (run (mockWorld createMockWallet)
                  (executeQuery (selectParams "SELECT 1") testService)
                  (paidScript 300 (okResponse (Some testData)))) = Resolved r
    /\ Reply.status
         (Served.reply
            match resultOf
                    (run (mockWorld createMockWallet)
                         (post_execute_sql
                            (Object (Text "SELECT 1") (Text "publisher-uuid"))
                            testService)
                         (paidScript 300 (okResponse (Some testData)))) with
            | Resolved served => served
            | Rejected _ => respond_json 0 (failure "") None
            end) = 200.
Proof.
  destruct (handler_passes_the_result_through (mockWorld createMockWallet)
              (paidScript 300 (okResponse (Some testData)))
              "SELECT 1" "publisher-uuid" testService eq_refl eq_refl)
    as (_ & _ & r & Hr & Hreply).
  exists r. split; [exact Hr |].
  vm_compute. reflexivity.
Defined.

(** Over HTTP a statement that fails the SELECT prefix test is not a bad
    request: the body is accepted, [executeQuery] rejects the statement
    without any call, and the reply is status 500 with
    "Only SELECT queries are allowed". *)
Theorem non_select_over_http_is_a_500 :
  forall (W : World) (w : world W) (sql providerId : string)
         (self : SerenService.t),
    falsy sql = false ->
    falsy providerId = false ->
    startsWith (toUpperCase (trim sql)) "SELECT" = false ->
    traceOf (run W (post_execute_sql (Object (Text sql) (Text providerId)) self) w)
    = []
    /\ resultOf
         (run W (post_execute_sql (Object (Text sql) (Text providerId)) self) w)
       = Resolved (respond_json 500 (failure "Only SELECT queries are allowed")
                                None).
Proof.
  intros W w sql providerId self Hsql Hid Hprefix.
  unfold post_execute_sql, executeSqlSchema_safeParse, string_min_1, executeQuery.
  rewrite Hsql, Hid. cbn. rewrite Hsql, Hid. cbv zeta. rewrite Hprefix.
  cbn. split; reflexivity.
Qed.

Lemma non_select_over_http_is_a_500_witness :
  resultOf
    (run (mockWorld createMockWallet)
         (post_execute_sql (Object (Text "DROP TABLE t") (Text "publisher-uuid"))
                           testService)
         [])
  = Resolved (respond_json 500 (failure "Only SELECT queries are allowed") None).
Proof.
  apply (non_select_over_http_is_a_500 (mockWorld createMockWallet) []
           "DROP TABLE t" "publisher-uuid" testService eq_refl eq_refl eq_refl).
Defined.

(** Every reply of the handler has status 200, 400 or 500.  Status 200
    goes with a success body; status 500 always carries a non-empty
    error text; details are sent only with a 400. *)
Theorem reply_status_matches_body :
  forall (W : World) (w : world W) (body : RequestBody) (self : SerenService.t),
    exists served,
      resultOf (run W (post_execute_sql body self) w) = Resolved served
      /\ Served.consoleError served = []
      /\ ((Reply.status (Served.reply served) = 200
           /\ ExecuteQueryResult.success (Reply.json (Served.reply served)) = true
           /\ ExecuteQueryResult.error (Reply.json (Served.reply served)) = None
           /\ Reply.details (Served.reply served) = None)
          \/ (Reply.status (Served.reply served) = 400
              /\ Reply.json (Served.reply served) = failure "Invalid request body"
              /\ Reply.details (Served.reply served) <> None)
          \/ (Reply.status (Served.reply served) = 500
              /\ Reply.details (Served.reply served) = None
              /\ exists msg,
                   Reply.json (Served.reply served) = failure msg
                   /\ truthy msg = true)).
Proof.
  intros W w body self. all_runs.
  unfold post_execute_sql, executeQuery.
  destruct (executeSqlSchema_safeParse body) as [params | issues].
  all: unfold try_catch at 1; explore.
  all: eexists; split; [reflexivity |]; split; [reflexivity |].
  all: first [ left; repeat split; fail
             | right; left; repeat split; discriminate
             | right; right; split; [reflexivity |]; split; [reflexivity |];
               eexists; split; [reflexivity |];
               try reflexivity;
               match goal with
               | message : string |- _ => destruct message; reflexivity
               | e : Thrown |- _ => destruct e as [m | m |]; try destruct m; reflexivity
               end ].
Qed.
